(** * Path-Generation: the control-point list, its markers and the curve builder

    A shallow embedding of the Blender add-on [src/__init__.py].  The add-on
    keeps an ordered collection of control points in the scene, mirrors each
    point by a sphere object named after the point's index, and converts the
    collection into a NURBS or a Bezier spline on request.

    Operators are embedded as computations in a state-and-exception monad over
    a [World]: the scene properties the add-on registers, the part of
    [bpy.data] it touches, and the log of [self.report] calls. *)

From Stdlib Require Import ZArith String List Lia.
From stdpp Require Import base tactics list strings pretty.

Set Default Proof Using "Type".

(** ** Enumerations and results *)

(** Handle types of a Bezier anchor, as the host enumerates them. *)
Inductive HandleType := FREE | VECTOR | ALIGNED | AUTO.

(** The levels of [self.report]. *)
Inductive ReportLevel := INFO | WARNING.

(** The value an operator's [execute] returns. *)
Inductive Status := FINISHED | CANCELLED.

(** The [direction] property of the move operator. *)
Inductive UpDown := UP | DOWN.

(** Python exceptions the embedded code can raise: indexing a collection out
    of range, and using a reference to an element that is no longer there. *)
Inductive exn := IndexError | ReferenceError.

Inductive Result (A : Type) :=
| Ret (a : A)
| Raise (e : exn).
Arguments Ret {A} a.
Arguments Raise {A} e.

Section PathGeneration.

(** Coordinates are host floats.  The add-on never computes with them: it
    copies them and writes the two literals [0.0] and [1.0].  The development
    is therefore parametric in the coordinate type and in these two values. *)
Variable coord : Type.
Variable zero : coord.
Variable one : coord.

(** Two functions of the host that the add-on relies on are not part of it
    and are taken as parameters.

    The operator that adds a sphere keeps each component of its [location]
    argument within the range the host declares for it: for a component [v]
    the sphere is placed at [location_limit v].

    A new datablock gets a name that is unique in its collection:
    [unique_name taken name] is the name the host gives to a datablock that
    is created under [name] while the names [taken] are in use there. *)
Variable location_limit : coord -> coord.
Variable unique_name : list string -> string -> string.

(** The host keeps a requested name that is free, not empty and within its
    limit of 63 bytes. *)
Hypothesis unique_name_free : forall (taken : list string) (name : string),
  name <> "" -> String.length name <= 63 -> name ∉ taken ->
  unique_name taken name = name.

(** ** Data model *)

(** [ControlPointProperty]: the property group of one control point. *)
Record ControlPointProperty := mkPoint {
  x : coord;
  y : coord;
  z : coord;
  sphere_name : string
}.

Record BezierPoint := mkBezierPoint {
  bez_co : coord * coord * coord;
  handle_left_type : HandleType;
  handle_right_type : HandleType
}.

(** A spline of a curve datablock: [splines.new(type='NURBS')] or
    [splines.new(type='BEZIER')]. *)
Inductive Spline :=
| NurbsSpline (points : list (coord * coord * coord * coord))
              (order_u : Z) (use_endpoint_u : bool)
| BezierSpline (bezier_points : list BezierPoint).

Record CurveData := mkCurve {
  cu_name : string;
  dimensions : string;
  splines : list Spline
}.

(** What an object of [bpy.data.objects] carries: the mesh of a marker
    sphere, placed at a location with a material, or a curve datablock. *)
Inductive ObjectData :=
| UVSphere (location : coord * coord * coord) (material : string)
| CurveObject (cu : CurveData).

Record BObject := mkObject {
  ob_name : string;
  ob_data : ObjectData;
  users_collection : string
}.

(** The scene properties installed by [register]. *)
Record Scene := mkScene {
  control_points : list ControlPointProperty;
  active_control_point_index : Z;
  curve_type : string;
  curve_name : string
}.

(** The part of [bpy.data] the add-on reads and writes; of the curve
    datablocks, the collections and the materials it is the names that
    matter. *)
Record BlendData := mkData {
  objects : list BObject;
  curves : list string;
  collections : list string;
  materials : list string
}.

Record World := mkWorld {
  scene : Scene;
  bdata : BlendData;
  reports : list (ReportLevel * string)
}.

(** ** The monad of operator code *)

Definition M (A : Type) : Type := World -> Result A * World.

Definition ret {A} (a : A) : M A := fun w => (Ret a, w).

Definition bind {A B} (m : M A) (f : A -> M B) : M B :=
  fun w => match m w with
           | (Ret a, w') => f a w'
           | (Raise e, w') => (Raise e, w')
           end.

Definition raise {A} (e : exn) : M A := fun w => (Raise e, w).

Definition get_world : M World := fun w => (Ret w, w).

Definition modify (f : World -> World) : M unit := fun w => (Ret tt, f w).

Notation "v <- m ;; k" := (bind m (fun v => k))
  (at level 100, m at next level, right associativity).
Notation "m ;;; k" := (bind m (fun _ => k))
  (at level 100, right associativity).

(** [for v in l: body]. *)
Fixpoint for_each {A} (l : list A) (body : A -> M unit) : M unit :=
  match l with
  | [] => ret tt
  | a :: l' => body a ;;; for_each l' body
  end.

(** ** Field updates *)

Definition upd_points (f : list ControlPointProperty -> list ControlPointProperty)
    (sc : Scene) : Scene :=
  mkScene (f (control_points sc)) (active_control_point_index sc)
          (curve_type sc) (curve_name sc).

Definition set_control_points (f : list ControlPointProperty -> list ControlPointProperty)
    (w : World) : World :=
  mkWorld (upd_points f (scene w)) (bdata w) (reports w).

Definition set_active_control_point_index (i : Z) (w : World) : World :=
  mkWorld (mkScene (control_points (scene w)) i
                   (curve_type (scene w)) (curve_name (scene w)))
          (bdata w) (reports w).

Definition set_objects (f : list BObject -> list BObject) (w : World) : World :=
  mkWorld (scene w)
          (mkData (f (objects (bdata w))) (curves (bdata w))
                  (collections (bdata w)) (materials (bdata w)))
          (reports w).

Definition set_curves (f : list string -> list string) (w : World) : World :=
  mkWorld (scene w)
          (mkData (objects (bdata w)) (f (curves (bdata w)))
                  (collections (bdata w)) (materials (bdata w)))
          (reports w).

Definition set_collections (f : list string -> list string) (w : World) : World :=
  mkWorld (scene w)
          (mkData (objects (bdata w)) (curves (bdata w))
                  (f (collections (bdata w))) (materials (bdata w)))
          (reports w).

Definition set_materials (f : list string -> list string) (w : World) : World :=
  mkWorld (scene w)
          (mkData (objects (bdata w)) (curves (bdata w))
                  (collections (bdata w)) (f (materials (bdata w))))
          (reports w).

(** [self.report({level}, msg)]. *)
Definition report (lvl : ReportLevel) (msg : string) : M unit :=
  modify (fun w => mkWorld (scene w) (bdata w) (reports w ++ [(lvl, msg)])).

Definition set_curve_type (t : string) (w : World) : World :=
  mkWorld (mkScene (control_points (scene w)) (active_control_point_index (scene w))
                   t (curve_name (scene w)))
          (bdata w) (reports w).

(** [for v in l: body], with the local variables the body rebinds threaded
    through as [s]. *)
Fixpoint fold_each {A St} (l : list A) (s : St) (body : A -> St -> M St) : M St :=
  match l with
  | [] => ret s
  | a :: l' => s' <- body a s ;; fold_each l' s' body
  end.

(** ** The host collection [scene.control_points]

    A Python reference to an element of the collection is the element's
    position: the add-on never keeps one across a structural change. *)

Definition ref := nat.

(** [len(control_points)]. *)
Definition len : M Z :=
  fun w => (Ret (Z.of_nat (length (control_points (scene w)))), w).

(** [range(n)] and [range(a, b, -1)]. *)
Definition range (n : Z) : list Z :=
  map Z.of_nat (seq 0 (Z.to_nat n)).

Definition range_down (a b : Z) : list Z :=
  map (fun k => (a - Z.of_nat k)%Z) (seq 0 (Z.to_nat (a - b))).

(** Modelled from the spec: the indexing of the host collection, which is not
    part of the add-on.  The list is 0-indexed and index-addressable; as for
    every Python sequence of the host a negative index counts from the end,
    and an index outside the collection raises [IndexError]. *)
Definition getitem (i : Z) : M ref :=
  fun w =>
    let n := Z.of_nat (length (control_points (scene w))) in
    if (0 <=? i)%Z && (i <? n)%Z then (Ret (Z.to_nat i), w)
    else if (- n <=? i)%Z && (i <? 0)%Z then (Ret (Z.to_nat (n + i)), w)
    else (Raise IndexError, w).

(** Modelled from the spec: [control_points.add()] of the host collection.  A
    new element with the declared defaults ([0.0] coordinates, empty
    [sphere_name]) is appended at the end. *)
Definition coll_add : M ref :=
  fun w => (Ret (length (control_points (scene w))),
            set_control_points (fun l => l ++ [mkPoint zero zero zero ""]) w).

(** Modelled from the spec: [control_points.remove(index)] of the host
    collection.  The element is removed and the others keep their order; an
    index outside the collection leaves it as it is. *)
Definition list_remove (i : Z) (l : list ControlPointProperty) : list ControlPointProperty :=
  if (0 <=? i)%Z && (i <? Z.of_nat (length l))%Z then delete (Z.to_nat i) l else l.

Definition coll_remove (i : Z) : M unit := modify (set_control_points (list_remove i)).

(** Modelled from the spec: [control_points.move(key, pos)] of the host
    collection.  The element at [key] is taken out and put back at [pos], the
    elements between the two positions moving by one to fill the gap; with an
    index outside the collection nothing moves. *)
Definition list_move {A} (key pos : Z) (l : list A) : list A :=
  let n := Z.of_nat (length l) in
  if (0 <=? key)%Z && (key <? n)%Z && (0 <=? pos)%Z && (pos <? n)%Z then
    match l !! Z.to_nat key with
    | Some a =>
        let l' := delete (Z.to_nat key) l in
        take (Z.to_nat pos) l' ++ a :: drop (Z.to_nat pos) l'
    | None => l
    end
  else l.

Definition coll_move (key pos : Z) : M unit := modify (set_control_points (list_move key pos)).

(** Reading and writing through a reference. *)
Definition deref (r : ref) : M ControlPointProperty :=
  fun w => match control_points (scene w) !! r with
           | Some p => (Ret p, w)
           | None => (Raise ReferenceError, w)
           end.

Definition assign (r : ref) (f : ControlPointProperty -> ControlPointProperty) : M unit :=
  p <- deref r ;; modify (set_control_points (<[r := f p]>)).

(** [for point in control_points] and [for i, point in enumerate(control_points)]:
    the bodies change fields only, so the elements visited are those present
    when the loop starts. *)
Definition iter_points : M (list ref) :=
  fun w => (Ret (seq 0 (length (control_points (scene w)))), w).

Definition enumerate_points : M (list (Z * ref)) :=
  fun w => (Ret (map (fun k => (Z.of_nat k, k)) (seq 0 (length (control_points (scene w))))), w).

(** ** Marker spheres *)

(** [f"ControlPoint_{index}"]. *)
Definition marker_name (index : Z) : string := "ControlPoint_" +:+ pretty index.

Definition with_sphere_name (s : string) (p : ControlPointProperty) : ControlPointProperty :=
  mkPoint (x p) (y p) (z p) s.

(** [cleanup_sphere(sphere_name)]: the object of that name, if there is one,
    is removed from [bpy.data.objects]. *)
Definition cleanup_sphere (nm : string) : M unit :=
  if decide (nm = "") then ret tt
  else modify (set_objects (filter (fun o => ob_name o <> nm))).

Definition ensure (nm : string) (l : list string) : list string :=
  if decide (nm ∈ l) then l else l ++ [nm].

(** [create_control_point_sphere(context, control_point, index)].  The active
    layer collection is saved and restored around the body and is left out;
    the radius and the colour of the material are constants of the
    presentation.  The sphere is added by a host operator, which limits the
    location it is given. *)
Definition create_control_point_sphere (control_point : ref) (index : Z) : M unit :=
  let sphere_name' := marker_name index in
  assign control_point (with_sphere_name sphere_name') ;;;
  p <- deref control_point ;;
  cleanup_sphere (sphere_name p) ;;;
  modify (set_collections (ensure "Control Points")) ;;;
  p <- deref control_point ;;
  modify (set_objects (fun os =>
    os ++ [mkObject sphere_name'
                    (UVSphere (location_limit (x p), location_limit (y p),
                               location_limit (z p))
                              "RedControlPointMaterial")
                    "Control Points"])) ;;;
  modify (set_materials (ensure "RedControlPointMaterial")).

(** [ControlPointProperty.update_coords], the callback of the three
    coordinate properties: the point looks itself up in the collection and
    recreates its sphere under the index found. *)
Definition update_coords (self : ref) : M unit :=
  n <- len ;;
  if (Z.of_nat self <? n)%Z then create_control_point_sphere self (Z.of_nat self)
  else ret tt.

(** Assignments to [point.x], [point.y], [point.z]: the host stores the value
    and runs the update callback. *)
Definition set_x (r : ref) (v : coord) : M unit :=
  assign r (fun p => mkPoint v (y p) (z p) (sphere_name p)) ;;; update_coords r.

Definition set_y (r : ref) (v : coord) : M unit :=
  assign r (fun p => mkPoint (x p) v (z p) (sphere_name p)) ;;; update_coords r.

Definition set_z (r : ref) (v : coord) : M unit :=
  assign r (fun p => mkPoint (x p) (y p) v (sphere_name p)) ;;; update_coords r.

(** [point.x, point.y, point.z = a, b, c]. *)
Definition set_xyz (r : ref) (v : coord * coord * coord) : M unit :=
  set_x r (v.1.1) ;;; set_y r (v.1.2) ;;; set_z r (v.2).

(** ** Python lists local to an operator *)

(** [l[i]] for an index that is not negative. *)
Definition list_getitem {A} (l : list A) (i : Z) : M A :=
  match l !! Z.to_nat i with
  | Some a => ret a
  | None => raise IndexError
  end.

(** An update of the element [l[i]] in place, for an index that is not
    negative. *)
Definition list_update {A} (l : list A) (i : Z) (f : A -> A) : M (list A) :=
  match l !! Z.to_nat i with
  | Some a => ret (<[Z.to_nat i := f a]> l)
  | None => raise IndexError
  end.

(** ** Operators *)

(** [OBJECT_OT_select_curve_type.execute]. *)
Definition select_curve_type (curve_type' : string) : M Status :=
  modify (set_curve_type curve_type') ;;;
  report INFO ("Selected Curve Type: " +:+ curve_type') ;;;
  ret FINISHED.

(** [OBJECT_OT_move_control_point.execute]. *)
Definition move_control_point (direction : UpDown) (index : Z) : M Status :=
  num_points <- len ;;
  let old_index := index in
  let new_index := match direction with
                   | UP => (old_index - 1)%Z
                   | DOWN => (old_index + 1)%Z
                   end in
  (if (0 <=? new_index)%Z && (new_index <? num_points)%Z then
     current_point <- getitem old_index ;;
     target_point <- getitem new_index ;;
     cp <- deref current_point ;;
     cleanup_sphere (sphere_name cp) ;;;
     tp <- deref target_point ;;
     cleanup_sphere (sphere_name tp) ;;;
     coll_move old_index new_index ;;;
     modify (set_active_control_point_index new_index) ;;;
     r <- getitem old_index ;;
     assign r (with_sphere_name (marker_name old_index)) ;;;
     r <- getitem new_index ;;
     assign r (with_sphere_name (marker_name new_index)) ;;;
     r <- getitem old_index ;;
     create_control_point_sphere r old_index ;;;
     r <- getitem new_index ;;
     create_control_point_sphere r new_index
   else ret tt) ;;;
  ret FINISHED.

(** The loop that ends the structural operators: every point is renamed
    after its index and its sphere is created again. *)
Definition resync_all : M unit :=
  en <- enumerate_points ;;
  for_each en (fun ip =>
    assign ip.2 (with_sphere_name (marker_name ip.1)) ;;;
    create_control_point_sphere ip.2 ip.1).

(** [OBJECT_OT_reorder_control_point.execute]. *)
Definition reorder_control_point (old_index new_index : Z) : M Status :=
  pts <- iter_points ;;
  for_each pts (fun point =>
    p <- deref point ;;
    cleanup_sphere (sphere_name p)) ;;;
  coll_move old_index new_index ;;;
  resync_all ;;;
  modify (set_active_control_point_index new_index) ;;;
  ret FINISHED.

(** [OBJECT_OT_add_control_point.execute].  The operator has one property,
    [index]. *)
Definition add_control_point (index : Z) : M Status :=
  num_points <- len ;;
  if (index <? 0)%Z || (num_points <? index)%Z then
    new_point <- coll_add ;;
    set_xyz new_point (zero, zero, zero) ;;;
    assign new_point (with_sphere_name (marker_name num_points)) ;;;
    create_control_point_sphere new_point num_points ;;;
    modify (set_active_control_point_index num_points) ;;;
    ret FINISHED
  else
    existing_points <-
      fold_each (range num_points) [] (fun i existing_points =>
        point <- getitem i ;;
        p <- deref point ;;
        cleanup_sphere (sphere_name p) ;;;
        ret (existing_points ++ [(x p, y p, z p)])) ;;
    new_point <- coll_add ;;
    for_each (range_down num_points index) (fun i =>
      let prev_idx := (i - 1)%Z in
      if (0 <=? prev_idx)%Z && (prev_idx <? Z.of_nat (length existing_points))%Z then
        point <- getitem i ;;
        data <- list_getitem existing_points prev_idx ;;
        set_xyz point data
      else ret tt) ;;;
    insert_point <- getitem index ;;
    set_xyz insert_point (zero, zero, zero) ;;;
    resync_all ;;;
    modify (set_active_control_point_index index) ;;;
    ret FINISHED.

(** [OBJECT_OT_remove_control_point.execute]. *)
Definition remove_control_point (index : Z) : M Status :=
  n <- len ;;
  (if (0 <=? index)%Z && (index <? n)%Z then
     r <- getitem index ;;
     p <- deref r ;;
     cleanup_sphere (sphere_name p) ;;;
     coll_remove index ;;;
     report INFO ("Removed control point " +:+ pretty (index + 1)%Z)
   else report WARNING "Invalid point index") ;;;
  ret FINISHED.

(** The assignment to [order_u] of a NURBS spline.  The property is the
    host's, not the add-on's: the host declares the order as an integer from
    2 to 64 and brings an assigned value outside to the nearest bound. *)
Definition order_u_range (v : Z) : Z := Z.max 2 (Z.min 64 v).

(** The two branches of [OBJECT_OT_generate_curve.execute] that fill the new
    spline.  A spline is created with one point and [add(n - 1)] brings it to
    [n]; new points carry the host's defaults until the loop writes them. *)
Definition nurbs_spline : M Spline :=
  n <- len ;;
  let points := (zero, zero, zero, zero)
                :: replicate (Z.to_nat (n - 1)) (zero, zero, zero, zero) in
  en <- enumerate_points ;;
  points <- fold_each en points (fun ip points =>
    p <- deref ip.2 ;;
    list_update points ip.1 (fun _ => (x p, y p, z p, one))) ;;
  ret (NurbsSpline points (order_u_range (Z.min 4 n)) true).

Definition bezier_spline : M Spline :=
  n <- len ;;
  let fresh := mkBezierPoint (zero, zero, zero) FREE FREE in
  let bezier_points := fresh :: replicate (Z.to_nat (n - 1)) fresh in
  en <- enumerate_points ;;
  bezier_points <- fold_each en bezier_points (fun ip bezier_points =>
    p <- deref ip.2 ;;
    bezier_points <- list_update bezier_points ip.1 (fun b =>
      mkBezierPoint (x p, y p, z p) (handle_left_type b) (handle_right_type b)) ;;
    bezier_points <- list_update bezier_points ip.1 (fun b =>
      mkBezierPoint (bez_co b) (handle_left_type b) AUTO) ;;
    list_update bezier_points ip.1 (fun b =>
      mkBezierPoint (bez_co b) AUTO (handle_right_type b))) ;;
  ret (BezierSpline bezier_points).

(** [scene.curve_name if scene.curve_name else "GeneratedCurve"]. *)
Definition effective_curve_name (sc : Scene) : string :=
  if decide (curve_name sc = "") then "GeneratedCurve" else curve_name sc.

(** [bpy.data.curves.new(name=..., type='CURVE')]: the host registers a
    curve datablock under the name it derives from the requested one, which
    is returned here. *)
Definition curves_new (name : string) : M string :=
  fun w => let name' := unique_name (curves (bdata w)) name in
           (Ret name', set_curves (fun cs => cs ++ [name']) w).

(** [bpy.data.objects.new(name, data)], linked to a collection: the object
    carries the name the host derives from the requested one. *)
Definition objects_new (name : string) (data : ObjectData) (collection : string) : M unit :=
  modify (set_objects (fun os =>
    os ++ [mkObject (unique_name (ob_name <$> os) name) data collection])).

(** [OBJECT_OT_generate_curve.execute]. *)
Definition generate_curve : M Status :=
  w <- get_world ;;
  let curve_type' := curve_type (scene w) in
  let curve_name' := effective_curve_name (scene w) in
  match control_points (scene w) with
  | [] =>
      report WARNING "No control points added!" ;;;
      ret CANCELLED
  | _ :: _ =>
      curve_data_name <- curves_new curve_name' ;;
      spline <- (if decide (curve_type' = "NURBS") then nurbs_spline
                 else bezier_spline) ;;
      let curve_data := mkCurve curve_data_name "3D" [spline] in
      objects_new (curve_name' +:+ "Obj") (CurveObject curve_data) "Scene Collection" ;;;
      report INFO ("Generated " +:+ curve_type' +:+ " curve: " +:+ curve_name') ;;;
      ret FINISHED
  end.

(** [OBJECT_OT_show_control_points.execute]. *)
Definition show_control_points : M Status :=
  modify (set_objects
    (filter (fun o => String.prefix "ControlPoint_" (ob_name o) = false))) ;;;
  en <- enumerate_points ;;
  for_each en (fun ip => create_control_point_sphere ip.2 ip.1) ;;;
  report INFO "Control points displayed as spheres" ;;;
  ret FINISHED.

(** [OBJECT_OT_hide_control_points.execute]. *)
Definition hide_control_points : M Status :=
  w <- get_world ;;
  (if decide ("Control Points" ∈ collections (bdata w)) then
     modify (set_objects (filter (fun o => users_collection o <> "Control Points")))
   else ret tt) ;;;
  report INFO "Control points hidden" ;;;
  ret FINISHED.

(** ** The list rows *)

(** An operator a button of the list is bound to, with the properties the
    row sets on it; the host runs the operator of that [bl_idname] when the
    button is pressed. *)
Inductive OperatorCall :=
| call_move_control_point (direction : UpDown) (index : Z)
| call_remove_control_point (index : Z).

Definition execute (call : OperatorCall) : M Status :=
  match call with
  | call_move_control_point direction index => move_control_point direction index
  | call_remove_control_point index => remove_control_point index
  end.

(** What a row holds, in drawing order: [row.operator], [row.label] and
    [row.prop] with their [text] and [icon] ("NONE" where the call gives no
    icon) and, for a button, its [emboss]. *)
Inductive Widget :=
| operator (call : OperatorCall) (text icon : string) (emboss : bool)
| label (text icon : string)
| prop (property text : string).

(** [CONTROL_POINTS_UL_list.draw_item], for the item at [index]; the layout
    type is the host's. *)
Definition draw_item (layout_type : string) (index : Z) : M (list Widget) :=
  if decide (layout_type = "DEFAULT" \/ layout_type = "COMPACT") then
    n <- len ;;
    ret [ if (0 <? index)%Z
          then operator (call_move_control_point UP index) "" "TRIA_UP" false
          else label "" "BLANK1";
          if (index <? n - 1)%Z
          then operator (call_move_control_point DOWN index) "" "TRIA_DOWN" false
          else label "" "BLANK1";
          label ("Control Point " +:+ pretty (index + 1)%Z) "NONE";
          prop "x" "X";
          prop "y" "Y";
          prop "z" "Z";
          operator (call_remove_control_point index) "" "X" false ]
  else ret [].

(** ** Registration *)

(** The part of [register] that acts on the scene and on [bpy.data]: an
    empty list is seeded with one point at the origin.  Registering the
    classes, declaring the scene properties and tagging the areas for redraw
    change nothing in the world. *)
Definition register : M unit :=
  w <- get_world ;;
  match control_points (scene w) with
  | [] =>
      point <- coll_add ;;
      set_xyz point (zero, zero, zero) ;;;
      assign point (with_sphere_name "ControlPoint_0") ;;;
      modify (set_collections (ensure "Control Points"))
  | _ :: _ => ret tt
  end.

(** ** Observations *)

(** The position of a point, and the sequence of positions of a world. *)
Definition position (p : ControlPointProperty) : coord * coord * coord :=
  (x p, y p, z p).

Definition positions (w : World) : list (coord * coord * coord) :=
  position <$> control_points (scene w).

Definition num_points (w : World) : Z :=
  Z.of_nat (length (control_points (scene w))).

(** What an operator on the points leaves alone: the other scene properties
    and the reports made so far. *)
Definition rest (w : World) : Z * string * string * list (ReportLevel * string) :=
  (active_control_point_index (scene w), curve_type (scene w),
   curve_name (scene w), reports w).

(** The control point of a NURBS spline and the anchor of a Bezier spline
    that the curve builder writes for a point. *)
Definition nurbs_point (p : ControlPointProperty) : coord * coord * coord * coord :=
  (x p, y p, z p, one).

Definition bezier_anchor (p : ControlPointProperty) : BezierPoint :=
  mkBezierPoint (x p, y p, z p) AUTO AUTO.

(** The name [generate_curve] asks for: the scene's curve name, or the
    default when that is empty. *)
Definition requested_name (w : World) : string :=
  match curve_name (scene w) with
  | "" => "GeneratedCurve"
  | _ => curve_name (scene w)
  end.

(** The object [generate_curve] links to the scene for a spline: the curve
    datablock and the object carry the names the host derives from the
    requested ones. *)
Definition curve_object (w : World) (spline : Spline) : BObject :=
  mkObject (unique_name (ob_name <$> objects (bdata w)) (requested_name w +:+ "Obj"))
           (CurveObject (mkCurve (unique_name (curves (bdata w)) (requested_name w))
                                 "3D" [spline]))
           "Scene Collection".

(** The order the host keeps for a NURBS spline of [n] points whose order
    is set to [min(4, n)]. *)
Definition nurbs_order (n : Z) : Z := Z.max 2 (Z.min 4 n).

(** The spline [generate_curve] builds for the points and the curve type of
    a world. *)
Definition built_spline (w : World) : Spline :=
  if decide (curve_type (scene w) = "NURBS")
  then NurbsSpline (nurbs_point <$> control_points (scene w))
                   (nurbs_order (num_points w)) true
  else BezierSpline (bezier_anchor <$> control_points (scene w)).

(** The list in which every point carries the marker name of its index. *)
Definition in_sync (l : list ControlPointProperty) : list ControlPointProperty :=
  imap (fun i p => with_sphere_name (marker_name (Z.of_nat i)) p) l.

(** The marker names of a list agree with the indices: every name that is
    not empty is the one of the point's index. *)
Definition markers_agree (l : list ControlPointProperty) : Prop :=
  forall (i : nat) (p : ControlPointProperty),
    l !! i = Some p -> sphere_name p <> "" -> sphere_name p = marker_name (Z.of_nat i).

(** An operator keeps the marker names in line with the indices from a world
    when it returns there and the names agree in the world it leaves. *)
Definition keeps_markers (op : M Status) (w : World) : Prop :=
  exists st w', op w = (Ret st, w') /\ markers_agree (control_points (scene w')).

(** What the claims call inserting in a list: the element goes to position
    [i], what was at [i] and after moves right by one. *)
Definition insert_at {A} (i : nat) (a : A) (l : list A) : list A :=
  take i l ++ a :: drop i l.

(** The sphere that marks a point under the name of an index: where the
    host places a sphere for the point's coordinates, with the shared
    material, in the markers' collection. *)
Definition sphere_of (index : Z) (p : ControlPointProperty) : BObject :=
  mkObject (marker_name index)
           (UVSphere (location_limit (x p), location_limit (y p), location_limit (z p))
                     "RedControlPointMaterial")
           "Control Points".

(** The objects of [bpy.data.objects] that carry a name, as
    [bpy.data.objects.get] looks them up. *)
Definition named (nm : string) (w : World) : list BObject :=
  filter (fun o => ob_name o = nm) (objects (bdata w)).

(** Every point is marked: under the marker name of its index there is one
    object, the sphere where the host places it for the point's
    coordinates. *)
Definition marked (w : World) : Prop :=
  forall (i : nat) (p : ControlPointProperty),
    control_points (scene w) !! i = Some p ->
    named (marker_name (Z.of_nat i)) w = [sphere_of (Z.of_nat i) p].

(** The world [create_control_point_sphere] leaves for a live point [p] at
    [r]. *)
Definition put_sphere (r : ref) (index : Z) (p : ControlPointProperty) (w : World) : World :=
  mkWorld
    (upd_points (<[r := with_sphere_name (marker_name index) p]>) (scene w))
    (mkData
       (filter (fun o => ob_name o <> marker_name index) (objects (bdata w))
          ++ [sphere_of index p])
       (curves (bdata w))
       (ensure "Control Points" (collections (bdata w)))
       (ensure "RedControlPointMaterial" (materials (bdata w))))
    (reports w).

(** A coordinate assignment at [r] has taken the world [w] to [w'] with the
    point [q] now at [r]: the point carries the marker name of [r], its
    sphere under that name is the one object there, and the objects under
    every other name are as before. *)
Definition updated (r : ref) (q : ControlPointProperty) (w w' : World) : Prop :=
  control_points (scene w')
    = <[r := with_sphere_name (marker_name (Z.of_nat r)) q]> (control_points (scene w))
  /\ named (marker_name (Z.of_nat r)) w' = [sphere_of (Z.of_nat r) q]
  /\ (forall nm, nm <> marker_name (Z.of_nat r) -> named nm w' = named nm w)
  /\ (marked w -> marked w').

(** The index the move operator aims at, and the direction that leads
    back. *)
Definition move_target (direction : UpDown) (index : Z) : Z :=
  match direction with
  | UP => (index - 1)%Z
  | DOWN => (index + 1)%Z
  end.

Definition opposite (direction : UpDown) : UpDown :=
  match direction with
  | UP => DOWN
  | DOWN => UP
  end.

(** ** A host for the worked instances

    The two host functions the worked instances run with, at integer
    coordinates.  A component of a location is kept between the
    single-precision values of the host's bounds [-1e12] and [1e12].  A name
    that is free is kept, and a name in use gets the first of the suffixes
    [.001], [.002], ... that makes it free. *)
Definition host_location_limit (v : Z) : Z :=
  Z.max (-999999995904) (Z.min 999999995904 v).

Definition numbered (name : string) (k : nat) : string :=
  name +:+ "." +:+ (if k <? 10 then "00" else if k <? 100 then "0" else "")
       +:+ pretty k.

Definition host_unique_name (taken : list string) (name : string) : string :=
  if decide (name ∈ taken) then
    default name
      (head (filter (fun c => c ∉ taken) (numbered name <$> seq 1 (S (length taken)))))
  else name.

(** ** Running monadic code *)

Lemma bind_run {A B} (m : M A) (f : A -> M B) w a w1 :
  m w = (Ret a, w1) -> bind m f w = f a w1.
Proof. intros H. unfold bind. by rewrite H. Qed.

Lemma bind_raise {A B} (m : M A) (f : A -> M B) w e w1 :
  m w = (Raise e, w1) -> bind m f w = (Raise e, w1).
Proof. intros H. unfold bind. by rewrite H. Qed.

Lemma bind_assoc {A B C} (m : M A) (f : A -> M B) (g : B -> M C) w :
  bind (bind m f) g w = bind m (fun a => bind (f a) g) w.
Proof. unfold bind. by destruct (m w) as [[a|e] w1]. Qed.

Lemma bind_modify {B} (f : World -> World) (k : unit -> M B) w :
  bind (modify f) k w = k tt (f w).
Proof. done. Qed.

(** A loop whose body keeps an invariant indexed by the number of rounds
    done runs to its end and establishes the invariant for all rounds. *)
Lemma for_each_inv {A} (I : nat -> World -> Prop) (l : list A) body w :
  I 0 w ->
  (forall k a v, l !! k = Some a -> I k v ->
     exists v', body a v = (Ret tt, v') /\ I (S k) v') ->
  exists w', for_each l body w = (Ret tt, w') /\ I (length l) w'.
Proof.
  revert I w. induction l as [|a l IH]; intros I w H0 Hstep; simpl.
  - by exists w.
  - destruct (Hstep 0 a w eq_refl H0) as (w1 & Hb & H1).
    destruct (IH (fun k => I (S k)) w1 H1) as (w2 & Hl & H2).
    { intros k b v Hk Hv. by apply (Hstep (S k)). }
    exists w2. split; [|done]. by rewrite (bind_run _ _ _ _ _ Hb).
Qed.

Lemma fold_each_inv {A St} (I : nat -> St -> World -> Prop) (l : list A) body s w :
  I 0 s w ->
  (forall k a t v, l !! k = Some a -> I k t v ->
     exists t' v', body a t v = (Ret t', v') /\ I (S k) t' v') ->
  exists s' w', fold_each l s body w = (Ret s', w') /\ I (length l) s' w'.
Proof.
  revert I s w. induction l as [|a l IH]; intros I s w H0 Hstep; simpl.
  - by exists s, w.
  - destruct (Hstep 0 a s w eq_refl H0) as (s1 & w1 & Hb & H1).
    destruct (IH (fun k => I (S k)) s1 w1 H1) as (s2 & w2 & Hl & H2).
    { intros k b t v Hk Hv. by apply (Hstep (S k)). }
    exists s2, w2. split; [|done]. by rewrite (bind_run _ _ _ _ _ Hb).
Qed.

(** ** The primitives on the scene *)

Lemma getitem_in_range (i : Z) w :
  (0 <= i < num_points w)%Z -> getitem i w = (Ret (Z.to_nat i), w).
Proof.
  unfold getitem, num_points. intros H.
  by rewrite (proj2 (Z.leb_le _ _)), (proj2 (Z.ltb_lt _ _)) by lia.
Qed.

Lemma getitem_nat (k : nat) (i : Z) w :
  Z.of_nat k = i -> k < length (control_points (scene w)) ->
  getitem i w = (Ret k, w).
Proof.
  intros <- Hk. rewrite getitem_in_range by (unfold num_points; lia).
  by rewrite Nat2Z.id.
Qed.

Lemma deref_lookup (r : ref) w p :
  control_points (scene w) !! r = Some p -> deref r w = (Ret p, w).
Proof. unfold deref. by intros ->. Qed.

Lemma assign_run (r : ref) f w p :
  control_points (scene w) !! r = Some p ->
  assign r f w = (Ret tt, set_control_points (<[r := f p]>) w).
Proof. intros H. unfold assign. by rewrite (bind_run _ _ _ _ _ (deref_lookup _ _ _ H)). Qed.

Lemma cleanup_sphere_scene nm w :
  exists w', cleanup_sphere nm w = (Ret tt, w')
             /\ scene w' = scene w /\ reports w' = reports w.
Proof.
  unfold cleanup_sphere. destruct (decide (nm = "")); eexists; split; done.
Qed.

(** Creating the sphere of a live point never raises; in the scene it touches
    the point's marker name and nothing else. *)
Lemma create_control_point_sphere_scene (r : ref) (index : Z) w p :
  control_points (scene w) !! r = Some p ->
  exists w', create_control_point_sphere r index w = (Ret tt, w')
    /\ scene w' = upd_points (<[r := with_sphere_name (marker_name index) p]>) (scene w)
    /\ reports w' = reports w.
Proof.
  intros H. unfold create_control_point_sphere.
  rewrite (bind_run _ _ _ _ _ (assign_run _ _ _ _ H)).
  set (w1 := set_control_points _ w).
  assert (H1 : control_points (scene w1) !! r
               = Some (with_sphere_name (marker_name index) p)).
  { simpl. apply list_lookup_insert_eq. by eapply lookup_lt_Some. }
  rewrite (bind_run _ _ _ _ _ (deref_lookup _ _ _ H1)).
  destruct (cleanup_sphere_scene (sphere_name (with_sphere_name (marker_name index) p)) w1)
    as (w2 & Hc & Hs & Hr).
  rewrite (bind_run _ _ _ _ _ Hc).
  unfold bind at 1, modify at 1.
  assert (H2 : control_points (scene (set_collections (ensure "Control Points") w2)) !! r
               = Some (with_sphere_name (marker_name index) p)).
  { simpl. by rewrite Hs. }
  rewrite (bind_run _ _ _ _ _ (deref_lookup _ _ _ H2)).
  eexists. split; [reflexivity|]. simpl. by rewrite Hs, Hr.
Qed.

Lemma in_sync_snoc l p :
  in_sync (l ++ [p])
  = in_sync l ++ [with_sphere_name (marker_name (Z.of_nat (length l))) p].
Proof. unfold in_sync. rewrite imap_app. simpl. by rewrite Nat.add_0_r. Qed.

Lemma length_in_sync l : length (in_sync l) = length l.
Proof. apply length_imap. Qed.

Lemma in_sync_lookup l (i : nat) :
  in_sync l !! i = with_sphere_name (marker_name (Z.of_nat i)) <$> l !! i.
Proof. unfold in_sync. by rewrite list_lookup_imap. Qed.

Lemma position_in_sync l : position <$> in_sync l = position <$> l.
Proof.
  induction l as [|p l IH] using rev_ind; [done|].
  by rewrite in_sync_snoc, !fmap_app, IH.
Qed.

Lemma in_sync_agree l : markers_agree (in_sync l).
Proof.
  intros i p Hi _. rewrite in_sync_lookup in Hi.
  destruct (l !! i); simplify_eq/=. done.
Qed.

(** One round of the renaming loop: the point at [k] gets the name of [k]. *)
Lemma resync_round (k : nat) w p :
  control_points (scene w) !! k = Some p ->
  exists w',
    bind (assign k (with_sphere_name (marker_name (Z.of_nat k))))
         (fun _ => create_control_point_sphere k (Z.of_nat k)) w = (Ret tt, w')
    /\ scene w' = upd_points (<[k := with_sphere_name (marker_name (Z.of_nat k)) p]>) (scene w)
    /\ reports w' = reports w.
Proof.
  intros H. rewrite (bind_run _ _ _ _ _ (assign_run _ _ _ _ H)).
  set (q := with_sphere_name (marker_name (Z.of_nat k)) p).
  set (w1 := set_control_points _ w).
  assert (H1 : control_points (scene w1) !! k = Some q).
  { simpl. apply list_lookup_insert_eq. by eapply lookup_lt_Some. }
  destruct (create_control_point_sphere_scene k (Z.of_nat k) w1 q H1) as (w2 & Hc & Hs & Hr).
  exists w2. split; [done|]. rewrite Hs, Hr. split; [|done].
  unfold upd_points. simpl. f_equal. by rewrite list_insert_insert_eq.
Qed.

(** A loop over [enumerate(control_points)] whose rounds rename the point
    they visit after its index brings every marker name in line with the
    indices, keeps the positions and the rest of the scene, and never raises. *)
Lemma rename_loop (body : Z * ref -> M unit) w :
  (forall (k : nat) v p,
     control_points (scene v) !! k = Some p ->
     exists v', body (Z.of_nat k, k) v = (Ret tt, v')
       /\ scene v' = upd_points
            (<[k := with_sphere_name (marker_name (Z.of_nat k)) p]>) (scene v)
       /\ reports v' = reports v) ->
  exists w', bind enumerate_points (fun en => for_each en body) w = (Ret tt, w')
    /\ scene w' = upd_points in_sync (scene w)
    /\ reports w' = reports w.
Proof.
  intros Hbody. unfold enumerate_points. unfold bind at 1.
  set (l := control_points (scene w)).
  destruct (for_each_inv
    (fun k v => scene v = upd_points (fun l => in_sync (take k l) ++ drop k l) (scene w)
                /\ reports v = reports w)
    (map (fun k => (Z.of_nat k, k)) (seq 0 (length l))) body w)
    as (w' & Hrun & Hs & Hr).
  - split; [|done]. by destruct w as [[] ? ?].
  - intros k a v Ha [Hs Hr].
    rewrite list_lookup_fmap in Ha.
    destruct (seq 0 (length l) !! k) as [j|] eqn:Hj; [|done].
    apply lookup_seq in Hj as [-> Hk]. simpl in Ha. simplify_eq.
    destruct (lookup_lt_is_Some_2 l k Hk) as [p Hp].
    assert (Hv : control_points (scene v) !! k = Some p).
    { rewrite Hs. simpl. fold l.
      rewrite lookup_app_r; rewrite length_in_sync, length_take; [|lia].
      replace (k - k `min` length l) with 0 by lia.
      by rewrite lookup_drop, Nat.add_0_r. }
    destruct (Hbody k v p Hv) as (v' & Hb & Hs' & Hr').
    exists v'. split; [done|]. split; [|congruence].
    rewrite Hs', Hs. unfold upd_points. simpl. f_equal. fold l.
    rewrite (take_S_r l k p Hp), in_sync_snoc, length_take.
    replace (k `min` length l) with k by lia.
    rewrite insert_app_r_alt; rewrite length_in_sync, length_take; [|lia].
    replace (k - k `min` length l) with 0 by lia.
    rewrite (drop_S l p k Hp). simpl. by rewrite <- app_assoc.
  - exists w'. split; [done|]. split; [|done].
    rewrite Hs. unfold upd_points. f_equal. fold l.
    rewrite length_map, length_seq, firstn_all, drop_all. apply app_nil_r.
Qed.

Lemma resync_all_scene w :
  exists w', resync_all w = (Ret tt, w')
    /\ scene w' = upd_points in_sync (scene w)
    /\ reports w' = reports w.
Proof. apply rename_loop. intros k v p Hp. by apply resync_round. Qed.

Lemma upd_points_obs f w w' :
  scene w' = upd_points f (scene w) -> reports w' = reports w ->
  control_points (scene w') = f (control_points (scene w)) /\ rest w' = rest w.
Proof. intros Hs Hr. unfold rest. by rewrite Hs, Hr. Qed.

(** An assignment to a coordinate of a live point: the value is stored and
    the callback renames the point after its position. *)
Lemma assign_update_scene (r : ref) f w p :
  control_points (scene w) !! r = Some p ->
  exists w', bind (assign r f) (fun _ => update_coords r) w = (Ret tt, w')
    /\ scene w' = upd_points
         (<[r := with_sphere_name (marker_name (Z.of_nat r)) (f p)]>) (scene w)
    /\ reports w' = reports w.
Proof.
  intros H. rewrite (bind_run _ _ _ _ _ (assign_run _ _ _ _ H)).
  set (w1 := set_control_points _ w).
  assert (Hlt : r < length (control_points (scene w))) by by eapply lookup_lt_Some.
  assert (H1 : control_points (scene w1) !! r = Some (f p)).
  { simpl. by apply list_lookup_insert_eq. }
  unfold update_coords, len. unfold bind at 1.
  rewrite (proj2 (Z.ltb_lt _ _)); [|apply lookup_lt_Some in H1; lia].
  destruct (create_control_point_sphere_scene r (Z.of_nat r) w1 (f p) H1)
    as (w2 & Hc & Hs & Hr).
  exists w2. split; [done|]. rewrite Hs, Hr. split; [|done].
  unfold upd_points. simpl. f_equal. by rewrite list_insert_insert_eq.
Qed.

Lemma set_xyz_scene (r : ref) (v : coord * coord * coord) w p :
  control_points (scene w) !! r = Some p ->
  exists w', set_xyz r v w = (Ret tt, w')
    /\ scene w' = upd_points
         (<[r := mkPoint v.1.1 v.1.2 v.2 (marker_name (Z.of_nat r))]>) (scene w)
    /\ reports w' = reports w.
Proof.
  intros H. unfold set_xyz, set_x, set_y, set_z.
  assert (Hlt : r < length (control_points (scene w))) by by eapply lookup_lt_Some.
  destruct (assign_update_scene r
    (fun p => mkPoint v.1.1 (y p) (z p) (sphere_name p)) w p H) as (w1 & H1 & Hs1 & Hr1).
  rewrite (bind_run _ _ _ _ _ H1).
  assert (Hp1 : control_points (scene w1) !! r
    = Some (mkPoint v.1.1 (y p) (z p) (marker_name (Z.of_nat r)))).
  { rewrite Hs1. simpl. by apply list_lookup_insert_eq. }
  destruct (assign_update_scene r
    (fun p => mkPoint (x p) v.1.2 (z p) (sphere_name p)) w1 _ Hp1) as (w2 & H2 & Hs2 & Hr2).
  rewrite (bind_run _ _ _ _ _ H2).
  assert (Hp2 : control_points (scene w2) !! r
    = Some (mkPoint v.1.1 v.1.2 (z p) (marker_name (Z.of_nat r)))).
  { rewrite Hs2. simpl. apply list_lookup_insert_eq. rewrite Hs1. simpl.
    by rewrite length_insert. }
  destruct (assign_update_scene r
    (fun p => mkPoint (x p) (y p) v.2 (sphere_name p)) w2 _ Hp2) as (w3 & H3 & Hs3 & Hr3).
  exists w3. split; [done|]. split; [|congruence].
  rewrite Hs3, Hs2, Hs1. unfold upd_points. simpl. f_equal.
  by rewrite !list_insert_insert_eq.
Qed.

(** The same on the positions. *)
Lemma set_xyz_positions (r : ref) (v : coord * coord * coord) w :
  r < length (control_points (scene w)) ->
  exists w', set_xyz r v w = (Ret tt, w')
    /\ positions w' = <[r := v]> (positions w)
    /\ rest w' = rest w.
Proof.
  intros Hlt. destruct (lookup_lt_is_Some_2 _ _ Hlt) as [p Hp].
  destruct (set_xyz_scene r v w p Hp) as (w' & Hrun & Hs & Hr).
  exists w'. split; [done|].
  destruct (upd_points_obs _ _ _ Hs Hr) as [Hc Hrest]. split; [|done].
  unfold positions. rewrite Hc. unfold ref in *.
  rewrite (list_fmap_insert position). by destruct v as [[a b] c].
Qed.

(** ** Lists: shifting right to make room *)

Lemma shift_round {A} (P : list A) (d v : A) (m : nat) :
  1 <= m <= length P -> P !! (m - 1) = Some v ->
  <[m := v]> (take (S m) (P ++ [d]) ++ drop m P) = take m (P ++ [d]) ++ drop (m - 1) P.
Proof.
  intros Hm Hv.
  assert (He : is_Some ((P ++ [d]) !! m)).
  { apply lookup_lt_is_Some_2. rewrite length_app. simpl. lia. }
  destruct He as [e He].
  rewrite (take_S_r _ _ _ He), <- app_assoc.
  rewrite insert_app_r_alt; rewrite length_take, length_app; simpl; [|lia].
  replace (m - m `min` (length P + 1)) with 0 by lia. simpl.
  replace (drop (m - 1) P) with (v :: drop m P); [done|].
  replace m with (S (m - 1)) at 1 by lia. symmetry. by apply drop_S.
Qed.

Lemma length_shifted {A} (P : list A) (d : A) (m : nat) :
  m <= length P -> length (take (S m) (P ++ [d]) ++ drop m P) = S (length P).
Proof.
  intros Hm. rewrite length_app, length_take, length_drop, length_app.
  cbn [length]. lia.
Qed.

Lemma shift_last {A} (P : list A) (d a : A) (i : nat) :
  i <= length P ->
  <[i := a]> (take (S i) (P ++ [d]) ++ drop i P) = insert_at i a P.
Proof.
  intros Hi. unfold insert_at.
  assert (He : is_Some ((P ++ [d]) !! i)).
  { apply lookup_lt_is_Some_2. rewrite length_app. simpl. lia. }
  destruct He as [e He].
  rewrite (take_S_r _ _ _ He), <- app_assoc, take_app_le by done.
  rewrite insert_app_r_alt; rewrite length_take; [|lia].
  by replace (i - i `min` length P) with 0 by lia.
Qed.

Lemma insert_at_lookup_lt {A} (i j : nat) (a : A) l :
  j < i -> i <= length l -> insert_at i a l !! j = l !! j.
Proof.
  intros Hj Hi. unfold insert_at.
  rewrite lookup_app_l by (rewrite length_take; lia).
  by apply lookup_take_lt.
Qed.

Lemma insert_at_lookup_eq {A} (i : nat) (a : A) l :
  i <= length l -> insert_at i a l !! i = Some a.
Proof.
  intros Hi. unfold insert_at.
  rewrite lookup_app_r; rewrite length_take; [|lia].
  by replace (i - i `min` length l) with 0 by lia.
Qed.

Lemma insert_at_lookup_gt {A} (i j : nat) (a : A) l :
  i <= j -> i <= length l -> insert_at i a l !! S j = l !! j.
Proof.
  intros Hj Hi. unfold insert_at.
  rewrite lookup_app_r; rewrite length_take; [|lia].
  replace (S j - i `min` length l) with (S (j - i)) by lia. simpl.
  rewrite lookup_drop. f_equal. lia.
Qed.

Lemma length_insert_at {A} (i : nat) (a : A) l :
  length (insert_at i a l) = S (length l).
Proof.
  unfold insert_at. rewrite length_app. simpl. rewrite length_take, length_drop. lia.
Qed.

Lemma fmap_insert_at {A B} (f : A -> B) (i : nat) (a : A) l :
  f <$> insert_at i a l = insert_at i (f a) (f <$> l).
Proof. unfold insert_at. by rewrite fmap_app, fmap_cons, fmap_take, fmap_drop. Qed.

Lemma in_sync_ext l1 l2 :
  position <$> l1 = position <$> l2 -> in_sync l1 = in_sync l2.
Proof.
  intros H. apply list_eq. intros i. rewrite !in_sync_lookup.
  assert (Hi : (position <$> l1) !! i = (position <$> l2) !! i) by by rewrite H.
  rewrite !list_lookup_fmap in Hi.
  destruct (l1 !! i) as [[a b c n1]|], (l2 !! i) as [[a' b' c' n2]|];
    simplify_eq/=; done.
Qed.

(** ** The add operator *)

Lemma len_run w : len w = (Ret (num_points w), w).
Proof. done. Qed.

Lemma range_lookup (n : nat) (k : nat) (i : Z) :
  range (Z.of_nat n) !! k = Some i -> i = Z.of_nat k /\ k < n.
Proof.
  unfold range. rewrite Nat2Z.id, list_lookup_fmap. intros H.
  destruct (seq 0 n !! k) as [j|] eqn:Hj; [|done].
  apply lookup_seq in Hj as [-> ?]. by simplify_eq/=.
Qed.

Lemma range_down_lookup (a b : Z) (k : nat) (i : Z) :
  range_down a b !! k = Some i -> i = (a - Z.of_nat k)%Z /\ (Z.of_nat k < a - b)%Z.
Proof.
  unfold range_down. rewrite list_lookup_fmap. intros H.
  destruct (seq 0 (Z.to_nat (a - b)) !! k) as [j|] eqn:Hj; [|done].
  apply lookup_seq in Hj as [-> ?]. simplify_eq/=. split; [done|lia].
Qed.

(** Outside [0, len] the new point is appended; the points that were there
    keep everything, their marker names too. *)
Lemma add_append_scene (index : Z) w :
  (index < 0 \/ num_points w < index)%Z ->
  exists w', add_control_point index w = (Ret FINISHED, w')
    /\ scene w' = mkScene
         (control_points (scene w)
            ++ [mkPoint zero zero zero (marker_name (num_points w))])
         (num_points w) (curve_type (scene w)) (curve_name (scene w))
    /\ reports w' = reports w.
Proof.
  intros Hidx. unfold add_control_point.
  rewrite (bind_run _ _ _ _ _ (len_run w)).
  replace ((index <? 0)%Z || (num_points w <? index)%Z) with true;
    [|symmetry; apply orb_true_iff; destruct Hidx;
      [left; by apply Z.ltb_lt|right; by apply Z.ltb_lt]].
  unfold bind at 1, coll_add at 1.
  set (l := control_points (scene w)).
  set (w1 := set_control_points _ w).
  assert (H1 : control_points (scene w1) !! length l = Some (mkPoint zero zero zero "")).
  { simpl. fold l. by rewrite lookup_app_r, Nat.sub_diag. }
  destruct (set_xyz_scene (length l) (zero, zero, zero) w1 _ H1) as (w2 & H2 & Hs2 & Hr2).
  rewrite (bind_run _ _ _ _ _ H2). simpl in Hs2.
  set (q := mkPoint zero zero zero (marker_name (Z.of_nat (length l)))) in *.
  assert (Hp2 : control_points (scene w2) !! length l = Some q).
  { rewrite Hs2. simpl. fold l. apply list_lookup_insert_eq.
    rewrite length_app. simpl. lia. }
  rewrite (bind_run _ _ _ _ _ (assign_run _ _ _ _ Hp2)).
  set (w3 := set_control_points _ w2).
  assert (Hp3 : control_points (scene w3) !! length l = Some q).
  { simpl. apply list_lookup_insert_eq. by eapply lookup_lt_Some. }
  destruct (create_control_point_sphere_scene (length l) (num_points w) w3 _ Hp3)
    as (w4 & H4 & Hs4 & Hr4).
  rewrite (bind_run _ _ _ _ _ H4).
  eexists. split; [reflexivity|]. simpl. rewrite Hs4, Hr4. simpl.
  rewrite Hs2. simpl. fold l. split; [|done]. f_equal.
  rewrite !list_insert_insert_eq.
  rewrite insert_app_r_alt, Nat.sub_diag by done. done.
Qed.

(** Inside [0, len] the positions from [index] on move right by one, the
    origin takes position [index], and every point is renamed after its
    index. *)
Lemma add_insert_scene (index : Z) w :
  (0 <= index <= num_points w)%Z ->
  exists w', add_control_point index w = (Ret FINISHED, w')
    /\ scene w' = mkScene
         (in_sync (insert_at (Z.to_nat index) (mkPoint zero zero zero "")
                             (control_points (scene w))))
         index (curve_type (scene w)) (curve_name (scene w))
    /\ reports w' = reports w.
Proof.
  intros Hidx. unfold add_control_point.
  rewrite (bind_run _ _ _ _ _ (len_run w)).
  replace ((index <? 0)%Z || (num_points w <? index)%Z) with false;
    [|symmetry; apply orb_false_iff; split; [apply Z.ltb_ge|apply Z.ltb_ge]; lia].
  set (l := control_points (scene w)).
  set (n := length l).
  assert (Hn : num_points w = Z.of_nat n) by done.
  set (P := positions w).
  assert (HP : length P = n) by (unfold P, positions; by rewrite length_fmap).
  (* the loop that saves the positions *)
  lazymatch goal with
  | |- context [bind (fold_each ?r ?s ?b) _ w] =>
      destruct (fold_each_inv
        (fun k t v => t = take k P /\ scene v = scene w /\ reports v = reports w)
        r b s w) as (ex & w1 & Hsave & Hex & Hs1 & Hr1)
  end.
  { done. }
  { intros k i t v Hk (-> & Hs & Hr). rewrite Hn in Hk.
    apply range_lookup in Hk as [-> Hk].
    assert (Hin : (0 <= Z.of_nat k < num_points v)%Z).
    { unfold num_points. rewrite Hs. fold l n. lia. }
    rewrite (bind_run _ _ _ _ _ (getitem_in_range _ v Hin)), Nat2Z.id.
    destruct (lookup_lt_is_Some_2 l k Hk) as [p Hp].
    assert (Hv : control_points (scene v) !! k = Some p) by by rewrite Hs.
    rewrite (bind_run _ _ _ _ _ (deref_lookup _ _ _ Hv)).
    destruct (cleanup_sphere_scene (sphere_name p) v) as (v' & Hc & Hs' & Hr').
    rewrite (bind_run _ _ _ _ _ Hc).
    eexists _, v'. split; [reflexivity|]. split; [|split; congruence].
    symmetry. apply take_S_r. unfold P, positions. fold l.
    by rewrite list_lookup_fmap, Hp. }
  rewrite (bind_run _ _ _ _ _ Hsave). clear Hsave.
  unfold range in Hex. rewrite Hn, length_map, length_seq, Nat2Z.id in Hex.
  rewrite <- HP, firstn_all in Hex. subst ex.
  (* the new point at the end *)
  unfold bind at 1, coll_add at 1.
  set (w2 := set_control_points _ w1).
  assert (Hpos2 : positions w2 = P ++ [(zero, zero, zero)]).
  { unfold positions, w2. simpl. rewrite Hs1. fold l. by rewrite fmap_app. }
  assert (Hrest2 : rest w2 = rest w) by (unfold rest, w2; simpl; by rewrite Hs1, Hr1).
  (* the loop that shifts *)
  assert (Hidx' : Z.to_nat index <= n) by lia.
  set (idx := Z.to_nat index) in *.
  lazymatch goal with
  | |- context [bind (for_each ?r ?b) _ w2] =>
      destruct (for_each_inv
        (fun k v => positions v
                    = take (S (n - k)) (P ++ [(zero, zero, zero)]) ++ drop (n - k) P
                    /\ rest v = rest w)
        r b w2) as (w3 & Hshift & Hpos3 & Hrest3)
  end.
  { split; [|done]. rewrite Hpos2, Nat.sub_0_r.
    rewrite firstn_all2 by (rewrite length_app; simpl; lia).
    rewrite drop_ge by lia. by rewrite app_nil_r. }
  { intros k i v Hk [Hpos Hrest]. rewrite Hn in Hk.
    apply range_down_lookup in Hk as [-> Hk].
    assert (Hlen : length (control_points (scene v)) = S n).
    { rewrite <- (length_fmap position). fold (positions v). rewrite Hpos.
      rewrite length_shifted; lia. }
    replace ((0 <=? Z.of_nat n - Z.of_nat k - 1)%Z
             && (Z.of_nat n - Z.of_nat k - 1 <? Z.of_nat (length P))%Z) with true;
      [|symmetry; apply andb_true_iff; split; [apply Z.leb_le|apply Z.ltb_lt]; lia].
    assert (Hin : (0 <= Z.of_nat n - Z.of_nat k < num_points v)%Z).
    { unfold num_points. lia. }
    rewrite (bind_run _ _ _ _ _ (getitem_in_range _ v Hin)).
    replace (Z.to_nat (Z.of_nat n - Z.of_nat k)) with (n - k) by lia.
    unfold list_getitem.
    replace (Z.to_nat (Z.of_nat n - Z.of_nat k - 1)) with (n - k - 1) by lia.
    destruct (lookup_lt_is_Some_2 P (n - k - 1) ltac:(lia)) as [d Hd].
    rewrite Hd. unfold bind at 1, ret at 1.
    destruct (set_xyz_positions (n - k) d v ltac:(lia)) as (v' & Hset & Hpos' & Hrest').
    exists v'. split; [done|]. split; [|congruence].
    rewrite Hpos', Hpos, shift_round by (done || lia).
    replace (S (n - S k)) with (n - k) by lia.
    by replace (n - S k) with (n - k - 1) by lia. }
  rewrite (bind_run _ _ _ _ _ Hshift). clear Hshift.
  unfold range_down in Hpos3. rewrite length_map, length_seq, Hn in Hpos3.
  replace (n - Z.to_nat (Z.of_nat n - index)) with idx in Hpos3 by lia.
  (* the origin at the insertion position *)
  assert (Hlen3 : length (control_points (scene w3)) = S n).
  { rewrite <- (length_fmap position). fold (positions w3). rewrite Hpos3.
    rewrite length_shifted; lia. }
  assert (Hin3 : (0 <= index < num_points w3)%Z) by (unfold num_points; lia).
  rewrite (bind_run _ _ _ _ _ (getitem_in_range _ w3 Hin3)). fold idx.
  destruct (set_xyz_positions idx (zero, zero, zero) w3 ltac:(lia))
    as (w4 & Hset & Hpos4 & Hrest4).
  rewrite (bind_run _ _ _ _ _ Hset). clear Hset.
  rewrite Hpos3, shift_last in Hpos4 by lia.
  (* all markers again *)
  destruct (resync_all_scene w4) as (w5 & Hsync & Hs5 & Hr5).
  rewrite (bind_run _ _ _ _ _ Hsync). clear Hsync.
  eexists. split; [reflexivity|]. simpl. rewrite Hs5, Hr5. simpl.
  assert (Hrest : rest w4 = rest w) by congruence.
  unfold rest in Hrest. simplify_eq. split; [|done].
  f_equal; [|done..].
  apply in_sync_ext. fold (positions w4). rewrite Hpos4.
  by rewrite fmap_insert_at.
Qed.

Lemma insert_at_end {A} (a : A) l : insert_at (length l) a l = l ++ [a].
Proof. unfold insert_at. by rewrite firstn_all, drop_all. Qed.

(** C2: for every list and every index argument, the add operator with
    [index < 0] or [index > len] appends the new point at the end; with an
    index in range every position that was at [index] or after it moves
    right by one, the positions before it stay, the new point takes
    [index], and the active index is the inserted position. *)
Theorem add_control_point_inserts (index : Z) (w : World) :
  exists w',
    add_control_point index w = (Ret FINISHED, w')
    /\ ((index < 0 \/ num_points w < index)%Z ->
          positions w' = positions w ++ [(zero, zero, zero)]
          /\ active_control_point_index (scene w') = num_points w)
    /\ ((0 <= index <= num_points w)%Z ->
          positions w' = insert_at (Z.to_nat index) (zero, zero, zero) (positions w)
          /\ (forall j, Z.to_nat index <= j -> positions w' !! S j = positions w !! j)
          /\ (forall j, j < Z.to_nat index -> positions w' !! j = positions w !! j)
          /\ positions w' !! Z.to_nat index = Some (zero, zero, zero)
          /\ active_control_point_index (scene w') = index).
Proof.
  assert (Hlen : Z.of_nat (length (positions w)) = num_points w).
  { unfold positions, num_points. by rewrite length_fmap. }
  destruct (decide (0 <= index <= num_points w)%Z) as [Hin|Hout].
  - destruct (add_insert_scene index w Hin) as (w' & Hrun & Hs & Hr).
    exists w'. split; [done|]. split; [lia|]. intros _.
    assert (Hpos : positions w'
                   = insert_at (Z.to_nat index) (zero, zero, zero) (positions w)).
    { unfold positions. rewrite Hs. simpl.
      by rewrite position_in_sync, fmap_insert_at. }
    rewrite Hpos, Hs. simpl. split; [done|].
    split; [intros j Hj; apply insert_at_lookup_gt; lia|].
    split; [intros j Hj; apply insert_at_lookup_lt; lia|].
    split; [apply insert_at_lookup_eq; lia|done].
  - destruct (add_append_scene index w ltac:(lia)) as (w' & Hrun & Hs & Hr).
    exists w'. split; [done|]. split; [|lia]. intros _.
    unfold positions. rewrite Hs. simpl. by rewrite fmap_app.
Qed.

Lemma add_out_of_range_same (index : Z) w :
  (index < 0 \/ num_points w < index)%Z ->
  add_control_point index w = add_control_point (-1) w.
Proof.
  intros Hidx. unfold add_control_point.
  rewrite !(bind_run _ _ _ _ _ (len_run w)).
  replace ((index <? 0)%Z || (num_points w <? index)%Z) with true; [done|].
  symmetry; apply orb_true_iff; destruct Hidx; [left|right]; by apply Z.ltb_lt.
Qed.

(** C7: for every list of length [n], the add operator at [-1], at [n] and at
    [n + 5] ends like appending the origin: the same sequence of positions
    and the same active index.  At [-1] and [n + 5] the worlds are the same;
    at [n] every marker is renamed after its index, so the whole scene is the
    same when the markers were in line with the indices. *)
Theorem add_at_end_equivalent (w : World) :
  exists w1 w2 w3,
    add_control_point (-1) w = (Ret FINISHED, w1)
    /\ add_control_point (num_points w) w = (Ret FINISHED, w2)
    /\ add_control_point (num_points w + 5) w = (Ret FINISHED, w3)
    /\ positions w1 = positions w ++ [(zero, zero, zero)]
    /\ positions w2 = positions w ++ [(zero, zero, zero)]
    /\ positions w3 = positions w ++ [(zero, zero, zero)]
    /\ active_control_point_index (scene w1) = num_points w
    /\ active_control_point_index (scene w2) = num_points w
    /\ active_control_point_index (scene w3) = num_points w
    /\ w3 = w1
    /\ (in_sync (control_points (scene w)) = control_points (scene w) ->
        scene w2 = scene w1).
Proof.
  assert (Hn : (0 <= num_points w)%Z) by (unfold num_points; lia).
  destruct (add_append_scene (-1) w ltac:(lia)) as (w1 & H1 & Hs1 & Hr1).
  destruct (add_insert_scene (num_points w) w ltac:(lia)) as (w2 & H2 & Hs2 & Hr2).
  destruct (add_append_scene (num_points w + 5) w ltac:(lia)) as (w3 & H3 & Hs3 & Hr3).
  assert (Heq : w3 = w1).
  { rewrite (add_out_of_range_same (num_points w + 5)) in H3 by lia. congruence. }
  unfold num_points in Hs2 at 1. rewrite Nat2Z.id, insert_at_end, in_sync_snoc in Hs2.
  exists w1, w2, w3. repeat split; try done.
  - unfold positions. rewrite Hs1. simpl. by rewrite fmap_app.
  - unfold positions. rewrite Hs2. simpl. by rewrite fmap_app, position_in_sync.
  - unfold positions. rewrite Hs3. simpl. by rewrite fmap_app.
  - by rewrite Hs1.
  - by rewrite Hs2.
  - by rewrite Hs3.
  - intros Hsync. rewrite Hs1, Hs2, Hsync. done.
Qed.

(** C10: for every list state and every index argument, the point the add
    operator inserts has the coordinates [(0, 0, 0)]: the operator takes the
    index and nothing else, the new list is the old one with the origin put
    in at the active index. *)
Theorem add_control_point_at_origin (index : Z) (w : World) :
  exists w' (pos : nat),
    add_control_point index w = (Ret FINISHED, w')
    /\ active_control_point_index (scene w') = Z.of_nat pos
    /\ positions w' = insert_at pos (zero, zero, zero) (positions w)
    /\ positions w' !! pos = Some (zero, zero, zero)
    /\ control_points (scene w') !! pos
       = Some (mkPoint zero zero zero (marker_name (Z.of_nat pos))).
Proof.
  assert (Hlen : length (positions w) = length (control_points (scene w))).
  { unfold positions. by rewrite length_fmap. }
  destruct (decide (0 <= index <= num_points w)%Z) as [Hin|Hout].
  - destruct (add_insert_scene index w Hin) as (w' & Hrun & Hs & Hr).
    assert (Hi : Z.to_nat index <= length (control_points (scene w))).
    { unfold num_points in Hin. lia. }
    exists w', (Z.to_nat index). split; [done|].
    assert (Hpos : positions w'
                   = insert_at (Z.to_nat index) (zero, zero, zero) (positions w)).
    { unfold positions. rewrite Hs. simpl.
      by rewrite position_in_sync, fmap_insert_at. }
    rewrite Hpos, Hs. simpl. split; [lia|]. split; [done|].
    split; [apply insert_at_lookup_eq; lia|].
    by rewrite in_sync_lookup, insert_at_lookup_eq.
  - destruct (add_append_scene index w ltac:(lia)) as (w' & Hrun & Hs & Hr).
    exists w', (length (control_points (scene w))). split; [done|].
    assert (Hpos : positions w' = positions w ++ [(zero, zero, zero)]).
    { unfold positions. rewrite Hs. simpl. by rewrite fmap_app. }
    rewrite Hpos, Hs. simpl. split; [done|].
    split; [by rewrite <- Hlen, insert_at_end|].
    split; [by rewrite lookup_app_r, <- Hlen, Nat.sub_diag by lia|].
    by rewrite lookup_app_r, Nat.sub_diag by lia.
Qed.

(** ** Lists: moving one element *)

Lemma list_move_in_range {A} (a b : nat) (l : list A) (e : A) :
  l !! a = Some e -> b < length l ->
  list_move (Z.of_nat a) (Z.of_nat b) l = insert_at b e (delete a l).
Proof.
  intros Ha Hb. unfold list_move, insert_at.
  assert (a < length l) by by eapply lookup_lt_Some.
  replace ((0 <=? Z.of_nat a)%Z && (Z.of_nat a <? Z.of_nat (length l))%Z
           && (0 <=? Z.of_nat b)%Z && (Z.of_nat b <? Z.of_nat (length l))%Z) with true.
  - by rewrite !Nat2Z.id, Ha.
  - symmetry. rewrite !andb_true_iff, !Z.leb_le, !Z.ltb_lt. lia.
Qed.

Lemma list_move_out_of_range {A} (key pos : Z) (l : list A) :
  ~ ((0 <= key < Z.of_nat (length l))%Z /\ (0 <= pos < Z.of_nat (length l))%Z) ->
  list_move key pos l = l.
Proof.
  intros H. unfold list_move.
  destruct ((0 <=? key)%Z && (key <? Z.of_nat (length l))%Z
            && (0 <=? pos)%Z && (pos <? Z.of_nat (length l))%Z) eqn:E; [|done].
  rewrite !andb_true_iff, !Z.leb_le, !Z.ltb_lt in E. lia.
Qed.

Lemma length_list_move {A} (key pos : Z) (l : list A) :
  length (list_move key pos l) = length l.
Proof.
  unfold list_move.
  destruct ((0 <=? key)%Z && (key <? Z.of_nat (length l))%Z
            && (0 <=? pos)%Z && (pos <? Z.of_nat (length l))%Z) eqn:E; [|done].
  rewrite !andb_true_iff, !Z.leb_le, !Z.ltb_lt in E.
  destruct (l !! Z.to_nat key) as [e|] eqn:He; [|done].
  assert (Z.to_nat key < length l) by by eapply lookup_lt_Some.
  rewrite length_app. cbn [length]. rewrite length_take, length_drop, length_delete by done.
  lia.
Qed.

Lemma fmap_list_move {A B} (f : A -> B) (key pos : Z) (l : list A) :
  f <$> list_move key pos l = list_move key pos (f <$> l).
Proof.
  unfold list_move. rewrite length_fmap.
  destruct ((0 <=? key)%Z && (key <? Z.of_nat (length l))%Z
            && (0 <=? pos)%Z && (pos <? Z.of_nat (length l))%Z); [|done].
  rewrite list_lookup_fmap. destruct (l !! Z.to_nat key) as [e|]; [|done]. simpl.
  by rewrite fmap_app, fmap_cons, fmap_take, fmap_drop, list_fmap_delete.
Qed.

(** Where each element is after a move from [a] to [b]: the moved element
    at [b], the elements between the two positions one place towards [a],
    the others where they were. *)
Lemma list_move_lookup {A} (a b j : nat) (l : list A) :
  a < length l -> b < length l ->
  list_move (Z.of_nat a) (Z.of_nat b) l !! j
  = if decide (j = b) then l !! a
    else if decide (a <= j < b) then l !! S j
    else if decide (b < j <= a) then l !! (j - 1)
    else l !! j.
Proof.
  intros Ha Hb. destruct (lookup_lt_is_Some_2 l a Ha) as [e He].
  rewrite (list_move_in_range a b l e He Hb). unfold insert_at.
  assert (Hd : length (delete a l) = length l - 1) by by rewrite length_delete.
  destruct (decide (j = b)) as [->|Hjb].
  - rewrite lookup_app_r; rewrite length_take; [|lia].
    by replace (b - b `min` length (delete a l)) with 0 by lia.
  - destruct (decide (j < b)) as [Hlt|Hge].
    + rewrite lookup_app_l by (rewrite length_take; lia).
      rewrite lookup_take_lt by done.
      destruct (decide (a <= j < b)).
      * by rewrite list_lookup_delete_ge by lia.
      * rewrite decide_False by lia. by rewrite list_lookup_delete_lt by lia.
    + rewrite lookup_app_r; rewrite length_take; [|lia].
      replace (j - b `min` length (delete a l)) with (S (j - b - 1)) by lia.
      simpl. rewrite lookup_drop.
      rewrite decide_False by lia.
      destruct (decide (b < j <= a)).
      * rewrite list_lookup_delete_lt by lia. f_equal. lia.
      * rewrite list_lookup_delete_ge by lia. f_equal. lia.
Qed.

(** Moving back undoes the move. *)
Lemma list_move_back {A} (key pos : Z) (l : list A) :
  list_move pos key (list_move key pos l) = l.
Proof.
  destruct (decide ((0 <= key < Z.of_nat (length l))%Z
                    /\ (0 <= pos < Z.of_nat (length l))%Z)) as [[Hk Hp]|Hout].
  - rewrite <- (Z2Nat.id key), <- (Z2Nat.id pos) by lia.
    set (a := Z.to_nat key). set (b := Z.to_nat pos).
    assert (Ha : a < length l) by lia. assert (Hb : b < length l) by lia.
    apply list_eq. intros j.
    rewrite list_move_lookup by (rewrite length_list_move; lia).
    rewrite !list_move_lookup by done.
    repeat case_decide; try lia; try done; f_equal; lia.
  - rewrite (list_move_out_of_range key pos l Hout).
    apply list_move_out_of_range. lia.
Qed.

(** ** The reorder operator *)

(** The loop that removes the sphere of every point leaves the scene alone. *)
Lemma cleanup_loop_scene w :
  exists w',
    for_each (seq 0 (length (control_points (scene w))))
      (fun point => bind (deref point) (fun p => cleanup_sphere (sphere_name p))) w
    = (Ret tt, w')
    /\ scene w' = scene w /\ reports w' = reports w.
Proof.
  lazymatch goal with
  | |- context [for_each ?r ?b w] =>
      destruct (for_each_inv
        (fun _ v => scene v = scene w /\ reports v = reports w) r b w)
        as (w' & Hrun & Hs & Hr)
  end.
  - done.
  - intros k a v Ha [Hs Hr]. apply lookup_seq in Ha as [-> Hk]. simpl in *.
    rewrite <- Hs in Hk. destruct (lookup_lt_is_Some_2 _ _ Hk) as [p Hp].
    rewrite (bind_run _ _ _ _ _ (deref_lookup _ _ _ Hp)).
    destruct (cleanup_sphere_scene (sphere_name p) v) as (v' & Hc & Hs' & Hr').
    exists v'. split; [done|]. split; congruence.
  - by exists w'.
Qed.

Lemma reorder_control_point_scene (old_index new_index : Z) w :
  exists w', reorder_control_point old_index new_index w = (Ret FINISHED, w')
    /\ scene w' = mkScene
         (in_sync (list_move old_index new_index (control_points (scene w))))
         new_index (curve_type (scene w)) (curve_name (scene w))
    /\ reports w' = reports w.
Proof.
  unfold reorder_control_point.
  destruct (cleanup_loop_scene w) as (w1 & H1 & Hs1 & Hr1).
  unfold bind at 1, iter_points at 1.
  rewrite (bind_run _ _ _ _ _ H1).
  unfold bind at 1, coll_move at 1, modify at 1.
  destruct (resync_all_scene (set_control_points (list_move old_index new_index) w1))
    as (w2 & H2 & Hs2 & Hr2).
  rewrite (bind_run _ _ _ _ _ H2).
  eexists. split; [reflexivity|]. simpl. rewrite Hs2, Hr2. simpl. by rewrite Hs1, Hr1.
Qed.

(** C6: the reorder operator takes the element at [old_index] to
    [new_index], the elements between the two positions moving by one to
    fill the gap, and the others staying (a reposition, not a swap); it sets
    the active index to [new_index]; and reordering back from [new_index] to
    [old_index] restores the original order of the positions. *)
Theorem reorder_control_point_repositions (old_index new_index : Z) (w : World) :
  exists w' w'',
    reorder_control_point old_index new_index w = (Ret FINISHED, w')
    /\ reorder_control_point new_index old_index w' = (Ret FINISHED, w'')
    /\ active_control_point_index (scene w') = new_index
    /\ positions w'' = positions w
    /\ length (positions w') = length (positions w)
    /\ ((0 <= old_index < num_points w)%Z -> (0 <= new_index < num_points w)%Z ->
        positions w' !! Z.to_nat new_index = positions w !! Z.to_nat old_index
        /\ (forall j, Z.to_nat old_index <= j < Z.to_nat new_index ->
              positions w' !! j = positions w !! S j)
        /\ (forall j, Z.to_nat new_index < j <= Z.to_nat old_index ->
              positions w' !! j = positions w !! (j - 1))
        /\ (forall j, j < Z.to_nat old_index `min` Z.to_nat new_index
                      \/ Z.to_nat old_index `max` Z.to_nat new_index < j ->
              positions w' !! j = positions w !! j)).
Proof.
  destruct (reorder_control_point_scene old_index new_index w) as (w1 & H1 & Hs1 & Hr1).
  destruct (reorder_control_point_scene new_index old_index w1) as (w2 & H2 & Hs2 & Hr2).
  assert (Hp1 : positions w1 = list_move old_index new_index (positions w)).
  { unfold positions. rewrite Hs1. simpl. by rewrite position_in_sync, fmap_list_move. }
  assert (Hp2 : positions w2 = list_move new_index old_index (positions w1)).
  { unfold positions. rewrite Hs2. simpl. by rewrite position_in_sync, fmap_list_move. }
  exists w1, w2. split; [done|]. split; [done|].
  split; [by rewrite Hs1|]. split; [by rewrite Hp2, Hp1, list_move_back|].
  split; [by rewrite Hp1, length_list_move|].
  intros Hold Hnew. rewrite Hp1.
  assert (Hlen : num_points w = Z.of_nat (length (positions w))).
  { unfold num_points, positions. by rewrite length_fmap. }
  rewrite <- (Z2Nat.id old_index), <- (Z2Nat.id new_index) by lia.
  rewrite !Nat2Z.id.
  set (a := Z.to_nat old_index). set (b := Z.to_nat new_index).
  assert (Ha : a < length (positions w)) by lia.
  assert (Hb : b < length (positions w)) by lia.
  split; [|split; [|split]].
  - rewrite list_move_lookup by done. by rewrite decide_True.
  - intros j Hj. rewrite list_move_lookup by done.
    rewrite decide_False by lia. by rewrite decide_True.
  - intros j Hj. rewrite list_move_lookup by done.
    rewrite decide_False by lia. rewrite decide_False by lia. by rewrite decide_True.
  - intros j Hj. rewrite list_move_lookup by done.
    rewrite decide_False by lia. rewrite decide_False by lia. by rewrite decide_False by lia.
Qed.

(** ** The remove operator *)

Lemma remove_control_point_in_range (index : Z) w :
  (0 <= index < num_points w)%Z ->
  exists w', remove_control_point index w = (Ret FINISHED, w')
    /\ scene w' = upd_points (delete (Z.to_nat index)) (scene w)
    /\ reports w'
       = reports w ++ [(INFO, "Removed control point " +:+ pretty (index + 1)%Z)].
Proof.
  intros Hidx. unfold remove_control_point.
  rewrite (bind_run _ _ _ _ _ (len_run w)).
  replace ((0 <=? index)%Z && (index <? num_points w)%Z) with true;
    [|symmetry; apply andb_true_iff; split; [apply Z.leb_le|apply Z.ltb_lt]; lia].
  cbv iota. rewrite !bind_assoc.
  rewrite (bind_run _ _ _ _ _ (getitem_in_range _ w Hidx)), !bind_assoc.
  destruct (lookup_lt_is_Some_2 (control_points (scene w)) (Z.to_nat index)
              ltac:(unfold num_points in Hidx; lia)) as [p Hp].
  rewrite (bind_run _ _ _ _ _ (deref_lookup _ _ _ Hp)), !bind_assoc.
  destruct (cleanup_sphere_scene (sphere_name p) w) as (w1 & Hc & Hs & Hr).
  rewrite (bind_run _ _ _ _ _ Hc).
  eexists. split; [reflexivity|]. simpl. rewrite Hs, Hr. split; [|done].
  unfold upd_points, list_remove. f_equal.
  replace ((0 <=? index)%Z && (index <? Z.of_nat (length (control_points (scene w))))%Z)
    with true; [done|].
  symmetry; apply andb_true_iff; split; [apply Z.leb_le|apply Z.ltb_lt];
    unfold num_points in Hidx; lia.
Qed.

Lemma remove_control_point_out_of_range_run (index : Z) w :
  ~ (0 <= index < num_points w)%Z ->
  remove_control_point index w
  = (Ret FINISHED,
     mkWorld (scene w) (bdata w) (reports w ++ [(WARNING, "Invalid point index")])).
Proof.
  intros Hidx. unfold remove_control_point.
  rewrite (bind_run _ _ _ _ _ (len_run w)).
  replace ((0 <=? index)%Z && (index <? num_points w)%Z) with false; [done|].
  symmetry. apply andb_false_iff.
  destruct (decide (0 <= index)%Z); [right; apply Z.ltb_ge|left; apply Z.leb_gt]; lia.
Qed.

(** C3, as the code has it: for every list, the remove operator with an index
    outside [0, len - 1] raises nothing.  It reports the warning
    "Invalid point index", leaves the scene and the objects as they are, and
    returns FINISHED. *)
Theorem remove_control_point_out_of_range (index : Z) (w : World) :
  ~ (0 <= index < num_points w)%Z ->
  remove_control_point index w
  = (Ret FINISHED,
     mkWorld (scene w) (bdata w) (reports w ++ [(WARNING, "Invalid point index")])).
Proof.
  intros Hidx. unfold remove_control_point.
  rewrite (bind_run _ _ _ _ _ (len_run w)).
  replace ((0 <=? index)%Z && (index <? num_points w)%Z) with false; [done|].
  symmetry. apply andb_false_iff.
  destruct (decide (0 <= index)%Z); [right; apply Z.ltb_ge|left; apply Z.leb_gt]; lia.
Qed.

(** ** The curve builder *)

(** The loop that writes one entry of a new spline per control point: it
    reads the scene and changes nothing in the world. *)
Lemma fill_loop {B} (h : ControlPointProperty -> B) (d : B)
    (body : Z * ref -> list B -> M (list B)) w :
  (forall (k : nat) p pts,
     control_points (scene w) !! k = Some p -> k < length pts ->
     body (Z.of_nat k, k) pts w = (Ret (<[k := h p]> pts), w)) ->
  fold_each (map (fun k => (Z.of_nat k, k)) (seq 0 (length (control_points (scene w)))))
            (replicate (length (control_points (scene w))) d) body w
  = (Ret (h <$> control_points (scene w)), w).
Proof.
  intros Hbody.
  set (l := control_points (scene w)).
  destruct (fold_each_inv
    (fun k pts v => v = w /\ pts = (h <$> take k l) ++ replicate (length l - k) d)
    (map (fun k => (Z.of_nat k, k)) (seq 0 (length l)))
    body (replicate (length l) d) w) as (pts & w' & Hrun & -> & Hpts).
  - split; [done|]. by rewrite Nat.sub_0_r.
  - intros k a pts v Ha [-> ->].
    rewrite list_lookup_fmap in Ha.
    destruct (seq 0 (length l) !! k) as [j|] eqn:Hj; [|done].
    apply lookup_seq in Hj as [-> Hk]. simpl in Ha. simplify_eq.
    destruct (lookup_lt_is_Some_2 l k Hk) as [p Hp].
    eexists _, w. split.
    { apply (Hbody k p); [done|].
      rewrite length_app, length_fmap, length_take, length_replicate. lia. }
    split; [done|].
    rewrite (take_S_r l k p Hp), fmap_app, <- app_assoc. simpl.
    rewrite insert_app_r_alt; rewrite length_fmap, length_take; [|lia].
    replace (k - k `min` length l) with 0 by lia.
    replace (length l - k) with (S (length l - S k)) by lia. done.
  - etrans; [exact Hrun|]. f_equal. f_equal.
    rewrite Hpts, length_map, length_seq, firstn_all, Nat.sub_diag. apply app_nil_r.
Qed.

Lemma list_update_run {B} (l : list B) (k : nat) (f : B -> B) (b : B) w :
  l !! k = Some b ->
  list_update l (Z.of_nat k) f w = (Ret (<[k := f b]> l), w).
Proof. intros H. unfold list_update. by rewrite Nat2Z.id, H. Qed.

Lemma fresh_spline_points {B} (d : B) (l : list ControlPointProperty) :
  l <> [] ->
  d :: replicate (Z.to_nat (Z.of_nat (length l) - 1)) d = replicate (length l) d.
Proof.
  destruct l as [|p l]; [done|]. intros _. simpl length.
  by replace (Z.to_nat (Z.of_nat (S (length l)) - 1)) with (length l) by lia.
Qed.

Lemma order_u_range_min (n : Z) : order_u_range (Z.min 4 n) = nurbs_order n.
Proof. unfold order_u_range, nurbs_order. lia. Qed.

Lemma nurbs_spline_run w :
  control_points (scene w) <> [] ->
  nurbs_spline w
  = (Ret (NurbsSpline (nurbs_point <$> control_points (scene w))
                      (nurbs_order (num_points w)) true), w).
Proof.
  intros Hne. unfold nurbs_spline.
  rewrite (bind_run _ _ _ _ _ (len_run w)). unfold num_points at 1.
  rewrite (fresh_spline_points _ _ Hne), order_u_range_min.
  unfold bind at 1, enumerate_points at 1.
  lazymatch goal with
  | |- context [fold_each _ _ ?b] =>
      pose proof (fill_loop nurbs_point (zero, zero, zero, zero) b w) as Hfill
  end.
  lapply Hfill; [clear Hfill; intros Hfill; by rewrite (bind_run _ _ _ _ _ Hfill)|].
  intros k p pts Hp Hk. simpl.
  rewrite (bind_run _ _ _ _ _ (deref_lookup _ _ _ Hp)).
  destruct (lookup_lt_is_Some_2 pts k Hk) as [b Hb].
  by rewrite (list_update_run _ _ _ _ _ Hb).
Qed.

Lemma bezier_spline_run w :
  control_points (scene w) <> [] ->
  bezier_spline w = (Ret (BezierSpline (bezier_anchor <$> control_points (scene w))), w).
Proof.
  intros Hne. unfold bezier_spline.
  rewrite (bind_run _ _ _ _ _ (len_run w)). unfold num_points at 1.
  rewrite (fresh_spline_points _ _ Hne).
  unfold bind at 1, enumerate_points at 1.
  lazymatch goal with
  | |- context [fold_each _ _ ?b] =>
      pose proof (fill_loop bezier_anchor (mkBezierPoint (zero, zero, zero) FREE FREE) b w)
        as Hfill
  end.
  lapply Hfill; [clear Hfill; intros Hfill; by rewrite (bind_run _ _ _ _ _ Hfill)|].
  intros k p pts Hp Hk. simpl.
  rewrite (bind_run _ _ _ _ _ (deref_lookup _ _ _ Hp)).
  destruct (lookup_lt_is_Some_2 pts k Hk) as [b Hb].
  rewrite (bind_run _ _ _ _ _ (list_update_run _ _ _ _ _ Hb)).
  erewrite bind_run; [|apply list_update_run; by apply list_lookup_insert_eq].
  erewrite list_update_run;
    [|apply list_lookup_insert_eq; by rewrite length_insert].
  by rewrite !list_insert_insert_eq.
Qed.

(** C5: generating with no control point is a failure the caller recovers
    from: the operator raises nothing, reports a warning and returns
    CANCELLED, and neither the scene nor the objects change, so no curve
    object is created. *)
Theorem generate_curve_empty (w : World) :
  control_points (scene w) = [] ->
  generate_curve w
  = (Ret CANCELLED,
     mkWorld (scene w) (bdata w) (reports w ++ [(WARNING, "No control points added!")])).
Proof. intros H. unfold generate_curve, bind, get_world. by rewrite H. Qed.

(** The spline [generate_curve] builds from the points of a world. *)
Lemma spline_run w :
  control_points (scene w) <> [] ->
  (if decide (curve_type (scene w) = "NURBS") then nurbs_spline else bezier_spline) w
  = (Ret (built_spline w), w).
Proof.
  intros Hne. unfold built_spline. destruct (decide _).
  - by apply nurbs_spline_run.
  - by apply bezier_spline_run.
Qed.

Lemma effective_curve_name_requested w :
  effective_curve_name (scene w) = requested_name w.
Proof.
  unfold effective_curve_name, requested_name.
  destruct (curve_name (scene w)); by destruct (decide _).
Qed.

(** The world [generate_curve] leaves when there are control points: one
    curve name and one object more, one report, the scene as it was. *)
Lemma generate_curve_run w :
  control_points (scene w) <> [] ->
  generate_curve w
  = (Ret FINISHED,
     mkWorld (scene w)
       (mkData (objects (bdata w) ++ [curve_object w (built_spline w)])
               (curves (bdata w) ++ [unique_name (curves (bdata w)) (requested_name w)])
               (collections (bdata w)) (materials (bdata w)))
       (reports w ++ [(INFO, "Generated " +:+ curve_type (scene w) +:+ " curve: "
                             +:+ requested_name w)])).
Proof.
  intros Hne. unfold generate_curve. unfold bind at 1, get_world at 1.
  destruct (control_points (scene w)) as [|p l] eqn:Hl; [done|].
  rewrite effective_curve_name_requested.
  unfold bind at 1, curves_new at 1.
  set (w1 := set_curves _ w).
  assert (Hsp : (if decide (curve_type (scene w) = "NURBS") then nurbs_spline
                 else bezier_spline) w1 = (Ret (built_spline w), w1)).
  { apply (spline_run w1). change (control_points (scene w) <> []). by rewrite Hl. }
  by rewrite (bind_run _ _ _ _ _ Hsp).
Qed.

(** C4: generating a NURBS curve from a list of [n >= 1] points creates one
    object that holds one spline: its order is [max(2, min(4, n))], the
    order the host keeps when [min(4, n)] is assigned, endpoint interpolation
    is on, and its control points are the [(x, y, z, 1.0)] of the list's
    points in the list's order.  The scene is left as it is. *)
Theorem generate_curve_nurbs (w : World) :
  curve_type (scene w) = "NURBS" ->
  control_points (scene w) <> [] ->
  exists w' ob name,
    generate_curve w = (Ret FINISHED, w')
    /\ scene w' = scene w
    /\ objects (bdata w') = objects (bdata w) ++ [ob]
    /\ ob_data ob
       = CurveObject (mkCurve name "3D"
           [NurbsSpline ((fun p => (x p, y p, z p, one)) <$> control_points (scene w))
                        (Z.max 2 (Z.min 4 (num_points w))) true]).
Proof.
  intros Hty Hne. eexists _, _, _. split; [by apply generate_curve_run|].
  split; [done|]. split; [done|].
  unfold built_spline. by rewrite decide_True.
Qed.


(** ** Show and hide *)

Lemma show_control_points_scene w :
  exists w', show_control_points w = (Ret FINISHED, w')
    /\ scene w' = upd_points in_sync (scene w)
    /\ reports w' = reports w ++ [(INFO, "Control points displayed as spheres")].
Proof.
  unfold show_control_points. unfold bind at 1, modify at 1.
  set (w1 := set_objects _ w).
  destruct (rename_loop (fun ip => create_control_point_sphere ip.2 ip.1) w1)
    as (w2 & H2 & Hs2 & Hr2).
  { intros k v p Hp. by apply create_control_point_sphere_scene. }
  rewrite <- bind_assoc, (bind_run _ _ _ _ _ H2).
  eexists. split; [reflexivity|]. simpl. by rewrite Hs2, Hr2.
Qed.

Lemma hide_control_points_scene w :
  exists w', hide_control_points w = (Ret FINISHED, w')
    /\ scene w' = scene w
    /\ reports w' = reports w ++ [(INFO, "Control points hidden")].
Proof.
  unfold hide_control_points. unfold bind at 1, get_world at 1.
  destruct (decide ("Control Points" ∈ collections (bdata w)));
    eexists; (split; [reflexivity|done]).
Qed.

(** ** The move operator *)

(** With the target out of bounds the operator does nothing at all. *)
Lemma move_control_point_target_out (direction : UpDown) (index : Z) w :
  let new_index := match direction with UP => (index - 1)%Z | DOWN => (index + 1)%Z end in
  ~ (0 <= new_index < num_points w)%Z ->
  move_control_point direction index w = (Ret FINISHED, w).
Proof.
  intros new_index Hout. unfold move_control_point.
  rewrite (bind_run _ _ _ _ _ (len_run w)). fold new_index.
  replace ((0 <=? new_index)%Z && (new_index <? num_points w)%Z) with false; [done|].
  symmetry. apply andb_false_iff.
  destruct (decide (0 <= new_index)%Z); [right; apply Z.ltb_ge|left; apply Z.leb_gt]; lia.
Qed.

(** With the index and the target in bounds the two neighbours change
    places, each is renamed after its new index, and the active index
    follows the moved point.  No other point changes. *)
Lemma move_control_point_in_range (direction : UpDown) (index : Z) w p q :
  let new_index := match direction with UP => (index - 1)%Z | DOWN => (index + 1)%Z end in
  control_points (scene w) !! Z.to_nat index = Some p ->
  control_points (scene w) !! Z.to_nat new_index = Some q ->
  (0 <= index)%Z -> (0 <= new_index)%Z ->
  exists w', move_control_point direction index w = (Ret FINISHED, w')
    /\ scene w' = mkScene
         (<[Z.to_nat new_index := with_sphere_name (marker_name new_index) p]>
            (<[Z.to_nat index := with_sphere_name (marker_name index) q]>
               (control_points (scene w))))
         new_index (curve_type (scene w)) (curve_name (scene w))
    /\ reports w' = reports w.
Proof.
  intros new_index Hp Hq Hi Hn.
  set (l := control_points (scene w)) in *.
  remember (Z.to_nat index) as a eqn:Ea'.
  remember (Z.to_nat new_index) as b eqn:Eb'.
  assert (Ha : a < length l) by by eapply lookup_lt_Some.
  assert (Hb : b < length l) by by eapply lookup_lt_Some.
  assert (Ea : Z.of_nat a = index) by lia.
  assert (Eb : Z.of_nat b = new_index) by lia.
  assert (Hab : b = S a \/ a = S b).
  { unfold new_index in *. destruct direction; lia. }
  unfold move_control_point.
  rewrite (bind_run _ _ _ _ _ (len_run w)), ?bind_assoc. fold new_index.
  replace ((0 <=? new_index)%Z && (new_index <? num_points w)%Z) with true;
    [|symmetry; apply andb_true_iff; split; [apply Z.leb_le|apply Z.ltb_lt];
      unfold num_points; fold l; lia].
  cbv iota. rewrite ?bind_assoc.
  assert (Hga : getitem index w = (Ret a, w)).
  { by apply getitem_nat. }
  assert (Hgb : getitem new_index w = (Ret b, w)).
  { by apply getitem_nat. }
  rewrite (bind_run _ _ _ _ _ Hga), ?bind_assoc.
  rewrite (bind_run _ _ _ _ _ Hgb), ?bind_assoc.
  rewrite (bind_run _ _ _ _ _ (deref_lookup _ _ _ Hp)), ?bind_assoc.
  destruct (cleanup_sphere_scene (sphere_name p) w) as (w1 & Hc1 & Hs1 & Hr1).
  rewrite (bind_run _ _ _ _ _ Hc1), ?bind_assoc.
  assert (Hq1 : control_points (scene w1) !! b = Some q) by by rewrite Hs1.
  rewrite (bind_run _ _ _ _ _ (deref_lookup _ _ _ Hq1)), ?bind_assoc.
  destruct (cleanup_sphere_scene (sphere_name q) w1) as (w2 & Hc2 & Hs2 & Hr2).
  rewrite (bind_run _ _ _ _ _ Hc2), ?bind_assoc.
  unfold coll_move at 1. rewrite bind_modify, ?bind_assoc, bind_modify, ?bind_assoc.
  set (w3 := set_active_control_point_index new_index _).
  set (m := list_move index new_index l).
  set (sc := fun cps => mkScene cps new_index (curve_type (scene w)) (curve_name (scene w))).
  assert (S3 : scene w3 = sc m) by (simpl; by rewrite Hs2, Hs1).
  assert (R3 : reports w3 = reports w) by (simpl; congruence).
  assert (Hlm : length m = length l) by apply length_list_move.
  assert (Hma : m !! a = Some q).
  { unfold m. rewrite <- Ea, <- Eb, list_move_lookup by done.
    destruct Hab as [Hab|Hab].
    - rewrite decide_False by lia. rewrite decide_True by lia. by rewrite <- Hab.
    - rewrite decide_False by lia. rewrite decide_False by lia.
      rewrite decide_True by lia. by replace (a - 1) with b by lia. }
  assert (Hmb : m !! b = Some p).
  { unfold m. rewrite <- Ea, <- Eb, list_move_lookup by done. by rewrite decide_True. }
  assert (Hne : a <> b) by lia.
  (* the two names *)
  set (q' := with_sphere_name (marker_name index) q).
  set (p' := with_sphere_name (marker_name new_index) p).
  assert (Hg3 : getitem index w3 = (Ret a, w3)).
  { apply getitem_nat; [done|]. rewrite S3. simpl. lia. }
  rewrite (bind_run _ _ _ _ _ Hg3), ?bind_assoc.
  assert (H3a : control_points (scene w3) !! a = Some q) by by rewrite S3.
  rewrite (bind_run _ _ _ _ _ (assign_run _ _ _ _ H3a)), ?bind_assoc.
  set (w4 := set_control_points _ w3).
  assert (S4 : scene w4 = sc (<[a := q']> m)).
  { unfold w4, set_control_points. cbn [scene]. by rewrite S3. }
  assert (Hg4 : getitem new_index w4 = (Ret b, w4)).
  { apply getitem_nat; [done|]. rewrite S4. simpl. rewrite length_insert. lia. }
  rewrite (bind_run _ _ _ _ _ Hg4), ?bind_assoc.
  assert (H4b : control_points (scene w4) !! b = Some p).
  { rewrite S4. simpl. by rewrite list_lookup_insert_ne by done. }
  rewrite (bind_run _ _ _ _ _ (assign_run _ _ _ _ H4b)), ?bind_assoc.
  set (w5 := set_control_points _ w4).
  assert (S5 : scene w5 = sc (<[b := p']> (<[a := q']> m))).
  { unfold w5, set_control_points. cbn [scene]. by rewrite S4. }
  (* the two spheres *)
  assert (Hg5 : getitem index w5 = (Ret a, w5)).
  { apply getitem_nat; [done|]. rewrite S5. simpl. rewrite !length_insert. lia. }
  rewrite (bind_run _ _ _ _ _ Hg5), ?bind_assoc.
  assert (H5a : control_points (scene w5) !! a = Some q').
  { rewrite S5. simpl. rewrite list_lookup_insert_ne by done.
    apply list_lookup_insert_eq. lia. }
  destruct (create_control_point_sphere_scene a index w5 _ H5a) as (w6 & Hc6 & Hs6 & Hr6).
  rewrite (bind_run _ _ _ _ _ Hc6), ?bind_assoc.
  assert (S6 : scene w6 = sc (<[b := p']> (<[a := q']> m))).
  { rewrite Hs6, S5. unfold upd_points, sc. simpl. f_equal.
    apply list_insert_id.
    rewrite list_lookup_insert_ne by done. apply list_lookup_insert_eq. lia. }
  assert (Hg6 : getitem new_index w6 = (Ret b, w6)).
  { apply getitem_nat; [done|]. rewrite S6. simpl. rewrite !length_insert. lia. }
  rewrite (bind_run _ _ _ _ _ Hg6), ?bind_assoc.
  assert (H6b : control_points (scene w6) !! b = Some p').
  { rewrite S6. simpl. apply list_lookup_insert_eq. rewrite length_insert. lia. }
  destruct (create_control_point_sphere_scene b new_index w6 _ H6b) as (w7 & Hc7 & Hs7 & Hr7).
  rewrite (bind_run _ _ _ _ _ Hc7), ?bind_assoc.
  exists w7. split; [done|]. split; [|rewrite Hr7, Hr6; simpl; congruence].
  rewrite Hs7, S6. unfold upd_points, sc. simpl. f_equal.
  apply list_eq. intros j.
  destruct (decide (j = b)) as [->|Hjb].
  { rewrite !list_lookup_insert_eq; [done|rewrite ?length_insert; lia..]. }
  rewrite !(list_lookup_insert_ne _ b j) by done.
  destruct (decide (j = a)) as [->|Hja].
  { rewrite !list_lookup_insert_eq; [done|rewrite ?length_insert; lia..]. }
  rewrite !(list_lookup_insert_ne _ a j) by done.
  unfold m. rewrite <- Ea, <- Eb, list_move_lookup by done.
  repeat case_decide; try lia; done.
Qed.

(** With the index one past the end and the target in bounds the operator
    raises [IndexError] before it changes anything. *)
Lemma move_control_point_past_end w :
  (1 <= num_points w)%Z ->
  move_control_point UP (num_points w) w = (Raise IndexError, w).
Proof.
  intros Hn. unfold move_control_point.
  rewrite (bind_run _ _ _ _ _ (len_run w)).
  replace ((0 <=? num_points w - 1)%Z && (num_points w - 1 <? num_points w)%Z) with true;
    [|symmetry; apply andb_true_iff; split; [apply Z.leb_le|apply Z.ltb_lt]; lia].
  cbv iota. rewrite ?bind_assoc.
  assert (Hg : getitem (num_points w) w = (Raise IndexError, w)).
  { unfold getitem. fold (num_points w).
    rewrite (proj2 (Z.ltb_ge _ _)) by lia. rewrite andb_false_r.
    rewrite (proj2 (Z.ltb_ge (num_points w) 0)) by lia. by rewrite andb_false_r. }
  by rewrite (bind_raise _ _ _ _ _ Hg).
Qed.

(** ** Marker names and indices *)

Lemma markers_agree_snoc l p :
  markers_agree l ->
  sphere_name p = marker_name (Z.of_nat (length l)) ->
  markers_agree (l ++ [p]).
Proof.
  intros Hl Hp i q Hi Hq.
  destruct (decide (i < length l)) as [Hlt|Hge].
  - rewrite lookup_app_l in Hi by done. by apply Hl.
  - rewrite lookup_app_r in Hi by lia.
    destruct (i - length l) as [|k] eqn:Hk; [|by destruct k].
    simpl in Hi. simplify_eq. by replace i with (length l) by lia.
Qed.

Lemma markers_agree_insert l (i : nat) p :
  markers_agree l ->
  sphere_name p = marker_name (Z.of_nat i) ->
  markers_agree (<[i := p]> l).
Proof.
  intros Hl Hp j q Hj Hq.
  destruct (decide (j = i)) as [->|Hne].
  - apply list_lookup_insert_Some in Hj as [(_ & -> & _)|[? _]]; done.
  - rewrite list_lookup_insert_ne in Hj by done. by apply Hl.
Qed.

(** X13: every operator but remove keeps the marker names in line with the
    indices; the move operator does when its index is in bounds. *)
Lemma marker_agreement_kept w :
  markers_agree (control_points (scene w)) ->
  (forall index, keeps_markers (add_control_point index) w)
  /\ (forall old_index new_index,
        keeps_markers (reorder_control_point old_index new_index) w)
  /\ (forall direction index, (0 <= index < num_points w)%Z ->
        keeps_markers (move_control_point direction index) w)
  /\ keeps_markers show_control_points w
  /\ keeps_markers hide_control_points w
  /\ keeps_markers generate_curve w.
Proof.
  intros Hw. unfold keeps_markers. repeat split.
  - intros index. destruct (decide (0 <= index <= num_points w)%Z) as [Hin|Hout].
    + destruct (add_insert_scene index w Hin) as (w' & Hrun & Hs & _).
      exists FINISHED, w'. split; [done|]. rewrite Hs. apply in_sync_agree.
    + destruct (add_append_scene index w ltac:(lia)) as (w' & Hrun & Hs & _).
      exists FINISHED, w'. split; [done|]. rewrite Hs. simpl.
      by apply markers_agree_snoc.
  - intros old_index new_index.
    destruct (reorder_control_point_scene old_index new_index w) as (w' & Hrun & Hs & _).
    exists FINISHED, w'. split; [done|]. rewrite Hs. apply in_sync_agree.
  - intros direction index Hidx.
    set (new_index := match direction with
                      | UP => (index - 1)%Z | DOWN => (index + 1)%Z end).
    destruct (decide (0 <= new_index < num_points w)%Z) as [Hin|Hout].
    + destruct (lookup_lt_is_Some_2 (control_points (scene w)) (Z.to_nat index)
                  ltac:(unfold num_points in Hidx; lia)) as [p Hp].
      destruct (lookup_lt_is_Some_2 (control_points (scene w)) (Z.to_nat new_index)
                  ltac:(unfold num_points in Hin; lia)) as [q Hq].
      destruct (move_control_point_in_range direction index w p q Hp Hq
                  ltac:(lia) ltac:(lia)) as (w' & Hrun & Hs & _).
      exists FINISHED, w'. split; [done|]. rewrite Hs. simpl. fold new_index.
      apply markers_agree_insert; [apply markers_agree_insert; [done|]|];
        simpl; f_equal; lia.
    + exists FINISHED, w. split; [|done].
      by apply move_control_point_target_out.
  - destruct (show_control_points_scene w) as (w' & Hrun & Hs & _).
    exists FINISHED, w'. split; [done|]. rewrite Hs. apply in_sync_agree.
  - destruct (hide_control_points_scene w) as (w' & Hrun & Hs & _).
    exists FINISHED, w'. split; [done|]. by rewrite Hs.
  - destruct (control_points (scene w)) as [|p l] eqn:Hl.
    + eexists _, _. split.
      { unfold generate_curve, bind, get_world. rewrite Hl. reflexivity. }
      simpl. by rewrite Hl.
    + eexists _, _. split.
      { apply generate_curve_run. by rewrite Hl. }
      simpl. by rewrite Hl.
Qed.

(** * The marker objects *)

(** ** Marker names *)

Lemma marker_name_inj (i j : Z) : marker_name i = marker_name j -> i = j.
Proof.
  unfold marker_name. intros H. cbn in H. simplify_eq. by apply (inj pretty).
Qed.

Lemma marker_name_nonempty (i : Z) : marker_name i <> "".
Proof. unfold marker_name. cbn. discriminate. Qed.

Lemma marker_name_prefix (i : Z) : String.prefix "ControlPoint_" (marker_name i) = true.
Proof. unfold marker_name. cbn. by destruct (pretty i). Qed.

(** A name is the marker name of an index below [n], or of none. *)
Lemma marker_name_below (nm : string) (n : nat) :
  (exists i : nat, i < n /\ nm = marker_name (Z.of_nat i))
  \/ (forall i : nat, i < n -> nm <> marker_name (Z.of_nat i)).
Proof.
  destruct (decide (nm ∈ (fun i => marker_name (Z.of_nat i)) <$> seq 0 n)) as [Hin|Hout].
  - left. apply list_elem_of_fmap in Hin as (i & -> & Hi).
    apply elem_of_seq in Hi. exists i. split; [lia|done].
  - right. intros i Hi ->. apply Hout. apply list_elem_of_fmap.
    exists i. split; [done|]. apply elem_of_seq. lia.
Qed.

(** ** Running backwards *)

Lemma bind_inv {A B} (m : M A) (f : A -> M B) w b w' :
  bind m f w = (Ret b, w') ->
  exists a w1, m w = (Ret a, w1) /\ f a w1 = (Ret b, w').
Proof.
  unfold bind. destruct (m w) as [[a|e] w1]; [|discriminate].
  intros H. by exists a, w1.
Qed.

Lemma assign_inv (r : ref) f w w' :
  assign r f w = (Ret tt, w') ->
  exists p, control_points (scene w) !! r = Some p
            /\ w' = set_control_points (<[r := f p]>) w.
Proof.
  unfold assign, bind, deref, modify.
  destruct (control_points (scene w) !! r) as [p|]; [|discriminate].
  intros H. exists p. split; [done|]. by simplify_eq.
Qed.

(** ** One sphere *)

Lemma create_control_point_sphere_run (r : ref) (index : Z) w p :
  control_points (scene w) !! r = Some p ->
  create_control_point_sphere r index w = (Ret tt, put_sphere r index p w).
Proof.
  intros H. unfold create_control_point_sphere.
  rewrite (bind_run _ _ _ _ _ (assign_run _ _ _ _ H)).
  set (w1 := set_control_points _ w).
  assert (H1 : control_points (scene w1) !! r
               = Some (with_sphere_name (marker_name index) p)).
  { simpl. apply list_lookup_insert_eq. by eapply lookup_lt_Some. }
  rewrite (bind_run _ _ _ _ _ (deref_lookup _ _ _ H1)).
  unfold cleanup_sphere. cbn [sphere_name with_sphere_name].
  rewrite decide_False by apply marker_name_nonempty.
  rewrite !bind_modify.
  lazymatch goal with
  | |- bind (deref r) _ ?v = _ =>
      assert (H2 : control_points (scene v) !! r
                   = Some (with_sphere_name (marker_name index) p)) by exact H1;
      rewrite (bind_run _ _ _ _ _ (deref_lookup _ _ _ H2))
  end.
  rewrite bind_modify. unfold modify, put_sphere, sphere_of. simpl. done.
Qed.

Lemma create_control_point_sphere_inv (r : ref) (index : Z) w w' :
  create_control_point_sphere r index w = (Ret tt, w') ->
  exists p, control_points (scene w) !! r = Some p /\ w' = put_sphere r index p w.
Proof.
  destruct (control_points (scene w) !! r) as [p|] eqn:Hp.
  - rewrite (create_control_point_sphere_run r index w p Hp).
    intros H. exists p. split; [done|]. by simplify_eq.
  - unfold create_control_point_sphere, assign, bind, deref. by rewrite Hp.
Qed.

Lemma named_put_sphere (nm : string) (r : ref) (index : Z) p w :
  named nm (put_sphere r index p w)
  = if decide (nm = marker_name index) then [sphere_of index p] else named nm w.
Proof.
  unfold named, put_sphere. simpl. rewrite filter_app.
  rewrite list_filter_filter.
  destruct (decide (nm = marker_name index)) as [->|Hne].
  - rewrite (list_filter_iff _ (fun _ => False)) by (intros o; split; [by intros [? ?]|done]).
    replace (filter (fun _ : BObject => False) (objects (bdata w))) with (@nil BObject)
      by (induction (objects (bdata w)); done).
    by rewrite filter_cons_True.
  - rewrite (list_filter_iff _ (fun o => ob_name o = nm))
      by (intros o; split; [by intros [? ?]|by intros ->]).
    rewrite filter_cons_False by (simpl; congruence). by rewrite app_nil_r.
Qed.

Lemma named_set_control_points (nm : string) f w :
  named nm (set_control_points f w) = named nm w.
Proof. done. Qed.

Lemma sphere_of_with_sphere_name (index : Z) (s : string) p :
  sphere_of index (with_sphere_name s p) = sphere_of index p.
Proof. done. Qed.

(** ** One sphere per point *)

(** A loop over [enumerate(control_points)] whose rounds rename the point
    they visit and put its sphere in place leaves every point marked, and
    leaves alone the objects under every name that is no marker name of the
    list. *)
Lemma sync_loop (body : Z * ref -> M unit) w :
  (forall (k : nat) v p,
     control_points (scene v) !! k = Some p ->
     exists v', body (Z.of_nat k, k) v = (Ret tt, v')
       /\ scene v' = upd_points
            (<[k := with_sphere_name (marker_name (Z.of_nat k)) p]>) (scene v)
       /\ reports v' = reports v
       /\ forall nm, named nm v'
            = if decide (nm = marker_name (Z.of_nat k))
              then [sphere_of (Z.of_nat k) p] else named nm v) ->
  exists w', bind enumerate_points (fun en => for_each en body) w = (Ret tt, w')
    /\ scene w' = upd_points in_sync (scene w)
    /\ reports w' = reports w
    /\ marked w'
    /\ (forall nm,
          (forall i : nat, i < length (control_points (scene w)) ->
                           nm <> marker_name (Z.of_nat i)) ->
          named nm w' = named nm w).
Proof.
  intros Hbody. unfold enumerate_points. unfold bind at 1.
  set (l := control_points (scene w)).
  destruct (for_each_inv
    (fun k v =>
       scene v = upd_points (fun l => in_sync (take k l) ++ drop k l) (scene w)
       /\ reports v = reports w
       /\ (forall (i : nat) p, i < k -> l !! i = Some p ->
             named (marker_name (Z.of_nat i)) v = [sphere_of (Z.of_nat i) p])
       /\ (forall nm, (forall i : nat, i < k -> nm <> marker_name (Z.of_nat i)) ->
             named nm v = named nm w))
    (map (fun k => (Z.of_nat k, k)) (seq 0 (length l))) body w)
    as (w' & Hrun & Hs & Hr & Hin & Hout).
  - split; [by destruct w as [[] ? ?]|]. split; [done|]. split; [|done].
    intros i p Hi. lia.
  - intros k a v Ha (Hs & Hr & Hin & Hout).
    rewrite list_lookup_fmap in Ha.
    destruct (seq 0 (length l) !! k) as [j|] eqn:Hj; [|done].
    apply lookup_seq in Hj as [-> Hk]. simpl in Ha. simplify_eq.
    destruct (lookup_lt_is_Some_2 l k Hk) as [p Hp].
    assert (Hv : control_points (scene v) !! k = Some p).
    { rewrite Hs. simpl. fold l.
      rewrite lookup_app_r; rewrite length_in_sync, length_take; [|lia].
      replace (k - k `min` length l) with 0 by lia.
      by rewrite lookup_drop, Nat.add_0_r. }
    destruct (Hbody k v p Hv) as (v' & Hb & Hs' & Hr' & Hn').
    exists v'. split; [done|]. split; [|split; [congruence|split]].
    + rewrite Hs', Hs. unfold upd_points. simpl. f_equal. fold l.
      rewrite (take_S_r l k p Hp), in_sync_snoc, length_take.
      replace (k `min` length l) with k by lia.
      rewrite insert_app_r_alt; rewrite length_in_sync, length_take; [|lia].
      replace (k - k `min` length l) with 0 by lia.
      rewrite (drop_S l p k Hp). simpl. by rewrite <- app_assoc.
    + intros i q Hi Hq. rewrite Hn'.
      destruct (decide (i = k)) as [->|Hne].
      * rewrite decide_True by done. congruence.
      * rewrite decide_False by (intros E; apply marker_name_inj in E; lia).
        apply Hin; [lia|done].
    + intros nm Hnm. rewrite Hn'.
      rewrite decide_False by (apply Hnm; lia).
      apply Hout. intros i Hi. apply Hnm. lia.
  - rewrite length_map, length_seq in Hs, Hin, Hout.
    exists w'. split; [done|].
    assert (Hs' : scene w' = upd_points in_sync (scene w)).
    { rewrite Hs. unfold upd_points. f_equal. fold l.
      rewrite firstn_all, drop_all. apply app_nil_r. }
    split; [done|]. split; [done|]. split; [|done].
    intros i q Hq. rewrite Hs' in Hq. simpl in Hq. fold l in Hq.
    rewrite in_sync_lookup in Hq.
    destruct (l !! i) as [p|] eqn:Hp; [|done]. simpl in Hq. simplify_eq.
    rewrite sphere_of_with_sphere_name.
    apply Hin; [by eapply lookup_lt_Some|done].
Qed.

Lemma resync_all_marked w :
  exists w', resync_all w = (Ret tt, w')
    /\ scene w' = upd_points in_sync (scene w)
    /\ reports w' = reports w
    /\ marked w'
    /\ (forall nm,
          (forall i : nat, i < length (control_points (scene w)) ->
                           nm <> marker_name (Z.of_nat i)) ->
          named nm w' = named nm w).
Proof.
  apply sync_loop. intros k v p Hp. simpl.
  rewrite (bind_run _ _ _ _ _ (assign_run _ _ _ _ Hp)).
  set (q := with_sphere_name (marker_name (Z.of_nat k)) p).
  set (v1 := set_control_points _ v).
  assert (H1 : control_points (scene v1) !! k = Some q).
  { simpl. apply list_lookup_insert_eq. by eapply lookup_lt_Some. }
  rewrite (create_control_point_sphere_run k (Z.of_nat k) v1 q H1).
  eexists. split; [done|]. split; [|split; [done|]].
  - unfold put_sphere, upd_points. simpl. f_equal. by rewrite list_insert_insert_eq.
  - intros nm. by rewrite named_put_sphere.
Qed.

(** What every round of a loop establishes holds when a loop of at least one
    round has returned. *)
Lemma for_each_established {A} (Q : World -> Prop) (l : list A) body w w' :
  l <> [] ->
  (forall a v v', body a v = (Ret tt, v') -> Q v') ->
  for_each l body w = (Ret tt, w') -> Q w'.
Proof.
  intros Hl HQ. revert w. induction l as [|a l IH]; [done|]. intros w Hrun.
  simpl in Hrun. apply bind_inv in Hrun as ([] & w1 & Ha & Hrun).
  destruct l as [|b l].
  - simpl in Hrun. unfold ret in Hrun. simplify_eq. by eapply HQ.
  - by apply (IH ltac:(done) w1).
Qed.

Lemma elem_of_ensure (nm : string) (l : list string) : nm ∈ ensure nm l.
Proof.
  unfold ensure. destruct (decide (nm ∈ l)); [done|].
  apply elem_of_app. right. by apply list_elem_of_singleton.
Qed.

Lemma filter_comm {A} (P Q : A -> Prop) `{!forall a, Decision (P a)}
    `{!forall a, Decision (Q a)} (l : list A) :
  filter P (filter Q l) = filter Q (filter P l).
Proof.
  rewrite !list_filter_filter. apply list_filter_iff.
  intros a. split; intros [? ?]; by split.
Qed.

Lemma named_set_objects_filter (nm : string) (Q : BObject -> Prop)
    `{!forall o, Decision (Q o)} w :
  named nm (set_objects (filter Q) w) = filter Q (named nm w).
Proof. unfold named. simpl. apply filter_comm. Qed.

Lemma filter_False_nil {A} (P : A -> Prop) `{!forall a, Decision (P a)} (l : list A) :
  (forall a, a ∈ l -> ~ P a) -> filter P l = [].
Proof.
  induction l as [|a l IH]; intros Hl; [done|].
  rewrite filter_cons_False by (apply Hl; left).
  apply IH. intros b Hb. apply Hl. by right.
Qed.

(** ** Show and hide on the objects *)

Lemma show_control_points_world w :
  exists w', show_control_points w = (Ret FINISHED, w')
    /\ scene w' = upd_points in_sync (scene w)
    /\ marked w'
    /\ (forall nm,
          (forall i : nat, i < length (control_points (scene w)) ->
                           nm <> marker_name (Z.of_nat i)) ->
          named nm w' = if String.prefix "ControlPoint_" nm then [] else named nm w)
    /\ (control_points (scene w) <> [] -> "Control Points" ∈ collections (bdata w')).
Proof.
  unfold show_control_points. rewrite bind_modify.
  set (w1 := set_objects _ w).
  destruct (sync_loop (fun ip => create_control_point_sphere ip.2 ip.1) w1)
    as (w2 & H2 & Hs2 & Hr2 & Hm2 & Hf2).
  { intros k v p Hp. simpl.
    rewrite (create_control_point_sphere_run k (Z.of_nat k) v p Hp).
    eexists. split; [done|]. split; [done|]. split; [done|].
    intros nm. apply named_put_sphere. }
  rewrite <- bind_assoc, (bind_run _ _ _ _ _ H2).
  eexists. split; [reflexivity|]. split; [exact Hs2|].
  split; [exact Hm2|]. split.
  - intros nm Hnm.
    change (named nm w2
            = if String.prefix "ControlPoint_" nm then [] else named nm w).
    rewrite (Hf2 nm Hnm). unfold w1. rewrite named_set_objects_filter.
    destruct (String.prefix "ControlPoint_" nm) eqn:Hpre.
    + apply filter_False_nil. intros o Ho.
      apply list_elem_of_filter in Ho as [-> _]. by rewrite Hpre.
    + unfold named. rewrite list_filter_filter. apply list_filter_iff.
      intros o. split; [by intros [? ?]|]. intros ->. done.
  - intros Hne.
    change ("Control Points" ∈ collections (bdata w2)).
    unfold enumerate_points in H2. unfold bind at 1 in H2.
    eapply (for_each_established
              (fun v => "Control Points" ∈ collections (bdata v))); [| |exact H2].
    + change (control_points (scene w1)) with (control_points (scene w)).
      destruct (control_points (scene w)) as [|q l]; [done|]. simpl. discriminate.
    + intros a v v' Ha. apply create_control_point_sphere_inv in Ha as (p & _ & ->).
      simpl. apply elem_of_ensure.
Qed.

(** X1: show leaves the list with its positions and every marker name in
    line with its index, and the objects in this state: under the marker
    name of every index one object, the sphere for that point, each
    component of its location being the point's coordinate as the host
    limits it; under every other name that starts with "ControlPoint_"
    nothing; under every other name what was there. *)
Theorem show_control_points_spheres (w : World) :
  exists w',
    show_control_points w = (Ret FINISHED, w')
    /\ positions w' = positions w
    /\ control_points (scene w') = in_sync (control_points (scene w))
    /\ marked w'
    /\ (forall nm,
          (forall i : nat, i < length (control_points (scene w)) ->
                           nm <> marker_name (Z.of_nat i)) ->
          named nm w' = if String.prefix "ControlPoint_" nm then [] else named nm w).
Proof.
  destruct (show_control_points_world w) as (w' & Hrun & Hs & Hm & Hf & _).
  exists w'. split; [done|]. split; [|split; [by rewrite Hs|done]].
  unfold positions. rewrite Hs. simpl. apply position_in_sync.
Qed.

Lemma hide_control_points_run w :
  hide_control_points w
  = (Ret FINISHED,
     mkWorld (scene w)
       (mkData
          (if decide ("Control Points" ∈ collections (bdata w))
           then filter (fun o => users_collection o <> "Control Points")
                       (objects (bdata w))
           else objects (bdata w))
          (curves (bdata w)) (collections (bdata w)) (materials (bdata w)))
       (reports w ++ [(INFO, "Control points hidden")])).
Proof.
  unfold hide_control_points. unfold bind at 1, get_world at 1.
  destruct (decide ("Control Points" ∈ collections (bdata w))); [done|].
  by destruct w as [? [] ?].
Qed.

(** X2: hide after show leaves no object under a name that starts with
    "ControlPoint_", removes nothing but objects (what remains was there
    before show), and keeps the list as show left it: the positions are the
    original ones. *)
Theorem hide_after_show (w : World) :
  exists w1 w2,
    show_control_points w = (Ret FINISHED, w1)
    /\ hide_control_points w1 = (Ret FINISHED, w2)
    /\ scene w2 = scene w1
    /\ positions w2 = positions w
    /\ (forall nm, String.prefix "ControlPoint_" nm = true -> named nm w2 = [])
    /\ (forall o, o ∈ objects (bdata w2) ->
          o ∈ objects (bdata w) /\ String.prefix "ControlPoint_" (ob_name o) = false).
Proof.
  destruct (show_control_points_world w) as (w1 & Hrun & Hs & Hm & Hf & Hc).
  eexists w1, _. split; [done|]. split; [apply hide_control_points_run|].
  split; [done|].
  assert (Hpos : positions w1 = positions w).
  { unfold positions. rewrite Hs. simpl. apply position_in_sync. }
  split; [exact Hpos|].
  assert (Hsub : forall o,
    o ∈ (if decide ("Control Points" ∈ collections (bdata w1))
         then filter (fun o => users_collection o <> "Control Points")
                     (objects (bdata w1))
         else objects (bdata w1)) -> o ∈ objects (bdata w1)).
  { intros o. destruct (decide _); [|done]. intros Ho.
    by apply list_elem_of_filter in Ho as [_ ?]. }
  assert (Hgone : forall nm, String.prefix "ControlPoint_" nm = true ->
    named nm (mkWorld (scene w1)
       (mkData
          (if decide ("Control Points" ∈ collections (bdata w1))
           then filter (fun o => users_collection o <> "Control Points")
                       (objects (bdata w1))
           else objects (bdata w1))
          (curves (bdata w1)) (collections (bdata w1)) (materials (bdata w1)))
       (reports w1 ++ [(INFO, "Control points hidden")])) = []).
  { intros nm Hpre.
    destruct (marker_name_below nm (length (control_points (scene w))))
      as [(i & Hi & ->)|Hno].
    - destruct (lookup_lt_is_Some_2 (control_points (scene w1)) i) as [p Hp].
      { rewrite Hs. simpl. by rewrite length_in_sync. }
      assert (Hne : control_points (scene w) <> []).
      { intros E. rewrite E in Hi. simpl in Hi. lia. }
      unfold named. simpl. rewrite decide_True by auto.
      rewrite filter_comm.
      change (filter (fun o => ob_name o = marker_name (Z.of_nat i))
                     (objects (bdata w1)))
        with (named (marker_name (Z.of_nat i)) w1).
      rewrite (Hm i p Hp). done.
    - apply filter_False_nil. intros o Ho Hn. simpl in Ho.
      apply Hsub in Ho.
      assert (Hin : o ∈ named nm w1).
      { unfold named. by apply list_elem_of_filter. }
      rewrite Hf, Hpre in Hin; [by apply elem_of_nil in Hin|].
      exact Hno. }
  split; [exact Hgone|].
  intros o Ho. simpl in Ho.
  destruct (String.prefix "ControlPoint_" (ob_name o)) eqn:Hpre.
  - specialize (Hgone (ob_name o) Hpre). unfold named in Hgone. simpl in Hgone.
    assert (Hin : o ∈ @nil BObject); [|by apply elem_of_nil in Hin].
    rewrite <- Hgone. by apply list_elem_of_filter.
  - split; [|done]. apply Hsub in Ho.
    assert (Hin : o ∈ named (ob_name o) w1).
    { unfold named. by apply list_elem_of_filter. }
    rewrite Hf, Hpre in Hin.
    + unfold named in Hin. by apply list_elem_of_filter in Hin as [_ ?].
    + intros i Hi E. rewrite E, marker_name_prefix in Hpre. discriminate.
Qed.

(** ** Coordinate assignments *)

Lemma assign_update_run (r : ref) f w p :
  control_points (scene w) !! r = Some p ->
  bind (assign r f) (fun _ => update_coords r) w
  = (Ret tt, put_sphere r (Z.of_nat r) (f p) (set_control_points (<[r := f p]>) w)).
Proof.
  intros H. rewrite (bind_run _ _ _ _ _ (assign_run _ _ _ _ H)).
  set (w1 := set_control_points _ w).
  assert (H1 : control_points (scene w1) !! r = Some (f p)).
  { simpl. apply list_lookup_insert_eq. by eapply lookup_lt_Some. }
  unfold update_coords. rewrite (bind_run _ _ _ _ _ (len_run w1)).
  rewrite (proj2 (Z.ltb_lt _ _));
    [|apply lookup_lt_Some in H1; unfold num_points; lia].
  by apply create_control_point_sphere_run.
Qed.

Lemma assign_update_updated (r : ref) f w p :
  control_points (scene w) !! r = Some p ->
  updated r (f p) w
    (put_sphere r (Z.of_nat r) (f p) (set_control_points (<[r := f p]>) w)).
Proof.
  intros Hp. assert (Hr : r < length (control_points (scene w)))
    by by eapply lookup_lt_Some.
  assert (Hn : forall nm, nm <> marker_name (Z.of_nat r) ->
    named nm (put_sphere r (Z.of_nat r) (f p) (set_control_points (<[r := f p]>) w))
    = named nm w).
  { intros nm Hnm. by rewrite named_put_sphere, decide_False. }
  assert (Hc : control_points (scene (put_sphere r (Z.of_nat r) (f p)
                        (set_control_points (<[r := f p]>) w)))
               = <[r := with_sphere_name (marker_name (Z.of_nat r)) (f p)]>
                   (control_points (scene w))).
  { simpl. by rewrite list_insert_insert_eq. }
  split; [exact Hc|]. split; [by rewrite named_put_sphere, decide_True|].
  split; [exact Hn|].
  intros Hm i q Hq. rewrite Hc in Hq.
  destruct (decide (i = r)) as [->|Hne].
  - rewrite list_lookup_insert_eq in Hq by done. simplify_eq.
    by rewrite named_put_sphere, decide_True.
  - rewrite list_lookup_insert_ne in Hq by done.
    rewrite Hn by (intros E; apply marker_name_inj in E; lia).
    by apply Hm.
Qed.

(** X3: an assignment to [x], [y] or [z] of a live point stores the value
    and, through the update callback, renames the point after its index and
    replaces the sphere under that name by one for the new coordinates: the
    point keeps the value assigned, the sphere is placed at the value as the
    host limits it.  The objects under other names stay, and a list whose
    points were all marked stays so. *)
Theorem coordinate_assignment_moves_sphere (r : ref) (v : coord) (w : World)
    (p : ControlPointProperty) :
  control_points (scene w) !! r = Some p ->
  exists wx wy wz,
    set_x r v w = (Ret tt, wx)
    /\ updated r (mkPoint v (y p) (z p) (sphere_name p)) w wx
    /\ set_y r v w = (Ret tt, wy)
    /\ updated r (mkPoint (x p) v (z p) (sphere_name p)) w wy
    /\ set_z r v w = (Ret tt, wz)
    /\ updated r (mkPoint (x p) (y p) v (sphere_name p)) w wz.
Proof.
  intros Hp.
  set (fx := fun q => mkPoint v (y q) (z q) (sphere_name q)).
  set (fy := fun q => mkPoint (x q) v (z q) (sphere_name q)).
  set (fz := fun q => mkPoint (x q) (y q) v (sphere_name q)).
  eexists _, _, _.
  split; [exact (assign_update_run r fx w p Hp)|].
  split; [exact (assign_update_updated r fx w p Hp)|].
  split; [exact (assign_update_run r fy w p Hp)|].
  split; [exact (assign_update_updated r fy w p Hp)|].
  split; [exact (assign_update_run r fz w p Hp)|].
  exact (assign_update_updated r fz w p Hp).
Qed.

(** ** Remove on the objects *)

Lemma cleanup_sphere_run (nm : string) w :
  cleanup_sphere nm w
  = (Ret tt, if decide (nm = "") then w
             else set_objects (filter (fun o => ob_name o <> nm)) w).
Proof. unfold cleanup_sphere. by destruct (decide (nm = "")). Qed.

Lemma named_cleanup (nm nm0 : string) w :
  named nm (if decide (nm0 = "") then w
            else set_objects (filter (fun o => ob_name o <> nm0)) w)
  = if decide (nm = nm0 /\ nm <> "") then [] else named nm w.
Proof.
  destruct (decide (nm0 = "")) as [->|Hne].
  - by rewrite decide_False by (intros [? ?]; done).
  - rewrite named_set_objects_filter.
    destruct (decide (nm = nm0 /\ nm <> "")) as [[-> _]|Hno].
    + apply filter_False_nil. intros o Ho Hn.
      by apply list_elem_of_filter in Ho as [? _].
    + unfold named. rewrite list_filter_filter. apply list_filter_iff.
      intros o. split; [by intros [? ?]|].
      intros ->. split; [|done]. intros E. apply Hno. by subst.
Qed.

Lemma remove_control_point_run (index : Z) w p :
  (0 <= index < num_points w)%Z ->
  control_points (scene w) !! Z.to_nat index = Some p ->
  remove_control_point index w
  = (Ret FINISHED,
     mkWorld (upd_points (delete (Z.to_nat index)) (scene w))
       (bdata (if decide (sphere_name p = "") then w
               else set_objects (filter (fun o => ob_name o <> sphere_name p)) w))
       (reports w ++ [(INFO, "Removed control point " +:+ pretty (index + 1)%Z)])).
Proof.
  intros Hidx Hp. unfold remove_control_point.
  rewrite (bind_run _ _ _ _ _ (len_run w)).
  replace ((0 <=? index)%Z && (index <? num_points w)%Z) with true;
    [|symmetry; apply andb_true_iff; split; [apply Z.leb_le|apply Z.ltb_lt]; lia].
  cbv iota. rewrite ?bind_assoc.
  rewrite (bind_run _ _ _ _ _ (getitem_in_range _ w Hidx)), ?bind_assoc.
  rewrite (bind_run _ _ _ _ _ (deref_lookup _ _ _ Hp)), ?bind_assoc.
  rewrite (bind_run _ _ _ _ _ (cleanup_sphere_run _ _)), ?bind_assoc.
  unfold coll_remove. rewrite bind_modify, ?bind_assoc.
  unfold report. rewrite bind_modify. unfold ret.
  f_equal. unfold set_control_points, upd_points, list_remove.
  replace ((0 <=? index)%Z
           && (index <? Z.of_nat (length (control_points (scene
                 (if decide (sphere_name p = "") then w
                  else set_objects (filter (fun o => ob_name o <> sphere_name p)) w)))))%Z)
    with true;
    [by destruct (decide (sphere_name p = ""))|].
  symmetry; apply andb_true_iff; split; [apply Z.leb_le|apply Z.ltb_lt];
    unfold num_points in Hidx; destruct (decide (sphere_name p = "")); simpl; lia.
Qed.

Lemma named_removed (nm : string) (index : Z) w p :
  named nm
    (mkWorld (upd_points (delete (Z.to_nat index)) (scene w))
       (bdata (if decide (sphere_name p = "") then w
               else set_objects (filter (fun o => ob_name o <> sphere_name p)) w))
       (reports w ++ [(INFO, "Removed control point " +:+ pretty (index + 1)%Z)]))
  = if decide (nm = sphere_name p /\ nm <> "") then [] else named nm w.
Proof. rewrite <- named_cleanup. reflexivity. Qed.

(** X4: remove with an index in range takes out the point at that index and
    no other: the points before it stay where they are, the points after it
    move down by one with their coordinates and their marker names, and the
    active index is not changed.  The object under the removed point's
    marker name is removed, the objects under other names stay; the report
    is the INFO "Removed control point <index + 1>". *)
Theorem remove_control_point_removes (index : Z) (w : World) :
  (0 <= index < num_points w)%Z ->
  exists w' p,
    remove_control_point index w = (Ret FINISHED, w')
    /\ control_points (scene w) !! Z.to_nat index = Some p
    /\ control_points (scene w') = delete (Z.to_nat index) (control_points (scene w))
    /\ (forall j, j < Z.to_nat index ->
          control_points (scene w') !! j = control_points (scene w) !! j)
    /\ (forall j, Z.to_nat index <= j ->
          control_points (scene w') !! j = control_points (scene w) !! S j)
    /\ num_points w' = (num_points w - 1)%Z
    /\ active_control_point_index (scene w') = active_control_point_index (scene w)
    /\ (forall nm, named nm w'
          = if decide (nm = sphere_name p /\ nm <> "") then [] else named nm w)
    /\ reports w'
       = reports w ++ [(INFO, "Removed control point " +:+ pretty (index + 1)%Z)].
Proof.
  intros Hidx.
  destruct (lookup_lt_is_Some_2 (control_points (scene w)) (Z.to_nat index)
              ltac:(unfold num_points in Hidx; lia)) as [p Hp].
  eexists _, p. split; [exact (remove_control_point_run index w p Hidx Hp)|].
  split; [done|]. simpl. split; [done|].
  split; [intros j Hj; by apply list_lookup_delete_lt|].
  split; [intros j Hj; by apply list_lookup_delete_ge|].
  split.
  { unfold num_points in *. simpl. rewrite length_delete by eauto. lia. }
  split; [done|]. split; [|done].
  intros nm. apply named_removed.
Qed.

(** ** Reorder and add on the objects *)

Lemma marked_set_active (i : Z) w : marked w -> marked (set_active_control_point_index i w).
Proof. done. Qed.

(** X5: after reorder, for every pair of indices, every point is marked: the
    marker names are in line with the indices and under the marker name of
    every index there is one object, the sphere for the point now at that
    index, placed at its coordinates as the host limits them. *)
Theorem reorder_control_point_marks (old_index new_index : Z) (w : World) :
  exists w',
    reorder_control_point old_index new_index w = (Ret FINISHED, w')
    /\ control_points (scene w')
       = in_sync (list_move old_index new_index (control_points (scene w)))
    /\ marked w'.
Proof.
  destruct (reorder_control_point_scene old_index new_index w) as (w' & Hrun & Hs & _).
  exists w'. split; [done|]. split; [by rewrite Hs|].
  unfold reorder_control_point in Hrun.
  apply bind_inv in Hrun as (pts & w0 & _ & Hrun).
  apply bind_inv in Hrun as ([] & w1 & _ & Hrun).
  apply bind_inv in Hrun as ([] & w2 & _ & Hrun).
  apply bind_inv in Hrun as ([] & w3 & H3 & Hrun).
  destruct (resync_all_marked w2) as (w3' & H3' & _ & _ & Hm & _).
  rewrite H3 in H3'. unfold bind, modify, ret in Hrun. simplify_eq.
  by apply marked_set_active.
Qed.

Lemma set_xyz_frame (r : ref) (v : coord * coord * coord) w p :
  control_points (scene w) !! r = Some p ->
  exists w', set_xyz r v w = (Ret tt, w')
    /\ (forall nm, nm <> marker_name (Z.of_nat r) -> named nm w' = named nm w).
Proof.
  intros Hp. unfold set_xyz, set_x, set_y, set_z.
  set (fx := fun q => mkPoint v.1.1 (y q) (z q) (sphere_name q)).
  set (fy := fun q => mkPoint (x q) v.1.2 (z q) (sphere_name q)).
  set (fz := fun q => mkPoint (x q) (y q) v.2 (sphere_name q)).
  pose proof (assign_update_run r fx w p Hp) as R1.
  destruct (assign_update_updated r fx w p Hp) as (Hc1 & _ & Hn1 & _).
  remember (put_sphere r (Z.of_nat r) (fx p) (set_control_points (<[r:=fx p]>) w))
    as w1 eqn:E1. clear E1.
  assert (Hp1 : is_Some (control_points (scene w1) !! r)).
  { apply lookup_lt_is_Some_2. rewrite Hc1, length_insert. by eapply lookup_lt_Some. }
  destruct Hp1 as [p1 Hp1].
  pose proof (assign_update_run r fy w1 p1 Hp1) as R2.
  destruct (assign_update_updated r fy w1 p1 Hp1) as (Hc2 & _ & Hn2 & _).
  remember (put_sphere r (Z.of_nat r) (fy p1) (set_control_points (<[r:=fy p1]>) w1))
    as w2 eqn:E2. clear E2.
  assert (Hp2 : is_Some (control_points (scene w2) !! r)).
  { apply lookup_lt_is_Some_2. rewrite Hc2, length_insert. by eapply lookup_lt_Some. }
  destruct Hp2 as [p2 Hp2].
  pose proof (assign_update_run r fz w2 p2 Hp2) as R3.
  destruct (assign_update_updated r fz w2 p2 Hp2) as (_ & _ & Hn3 & _).
  rewrite (bind_run _ _ _ _ _ R1), (bind_run _ _ _ _ _ R2).
  eexists. split; [exact R3|].
  intros nm Hnm. by rewrite Hn3, Hn2, Hn1.
Qed.

(** X6: add keeps the points marked.  With an index in [0, len] it leaves
    every point marked whatever the objects were before; with an index
    outside, the new point gets its sphere, placed for the origin, and the
    spheres of the others are not touched, so a list that was marked stays
    so.  A marked point has its sphere at its coordinates as the host limits
    them. *)
Theorem add_control_point_marks (index : Z) (w : World) :
  exists w',
    add_control_point index w = (Ret FINISHED, w')
    /\ ((0 <= index <= num_points w)%Z -> marked w')
    /\ (marked w -> marked w').
Proof.
  destruct (decide (0 <= index <= num_points w)%Z) as [Hin|Hout].
  - destruct (add_insert_scene index w Hin) as (w' & Hrun & _ & _).
    exists w'. split; [done|].
    assert (Hm : marked w'); [|by split].
    unfold add_control_point in Hrun.
    rewrite (bind_run _ _ _ _ _ (len_run w)) in Hrun.
    replace ((index <? 0)%Z || (num_points w <? index)%Z) with false in Hrun;
      [|symmetry; apply orb_false_iff; split; apply Z.ltb_ge; lia].
    apply bind_inv in Hrun as (ex & w1 & _ & Hrun).
    apply bind_inv in Hrun as (r & w2 & _ & Hrun).
    apply bind_inv in Hrun as ([] & w3 & _ & Hrun).
    apply bind_inv in Hrun as (r' & w4 & _ & Hrun).
    apply bind_inv in Hrun as ([] & w5 & _ & Hrun).
    apply bind_inv in Hrun as ([] & w6 & H6 & Hrun).
    destruct (resync_all_marked w5) as (w6' & H6' & _ & _ & Hm & _).
    rewrite H6 in H6'. unfold bind, modify, ret in Hrun. simplify_eq.
    by apply marked_set_active.
  - destruct (add_append_scene index w ltac:(lia)) as (w' & Hrun & Hs & _).
    exists w'. split; [done|]. split; [lia|]. intros Hm.
    set (l := control_points (scene w)) in *.
    unfold add_control_point in Hrun.
    rewrite (bind_run _ _ _ _ _ (len_run w)) in Hrun.
    replace ((index <? 0)%Z || (num_points w <? index)%Z) with true in Hrun;
      [|symmetry; apply orb_true_iff;
        destruct (decide (index < 0)%Z); [left|right]; apply Z.ltb_lt; lia].
    apply bind_inv in Hrun as (r & w1 & H1 & Hrun).
    unfold coll_add in H1. simplify_eq. fold l in Hrun.
    set (w1 := set_control_points _ w) in *.
    assert (Hp1 : control_points (scene w1) !! length l
                  = Some (mkPoint zero zero zero "")).
    { simpl. fold l. by rewrite lookup_app_r, Nat.sub_diag. }
    apply bind_inv in Hrun as ([] & w2 & H2 & Hrun).
    destruct (set_xyz_frame (length l) (zero, zero, zero) w1 _ Hp1) as (w2' & H2' & Hn2).
    rewrite H2 in H2'. simplify_eq.
    apply bind_inv in Hrun as ([] & w3 & H3 & Hrun).
    apply assign_inv in H3 as (p3 & _ & ->).
    apply bind_inv in Hrun as ([] & w4 & H4 & Hrun).
    apply create_control_point_sphere_inv in H4 as (p4 & Hp4 & ->).
    unfold bind, modify, ret in Hrun. simplify_eq.
    intros i q Hq.
    change (named (marker_name (Z.of_nat i))
              (put_sphere (length l) (num_points w) p4
                 (set_control_points
                    (<[length l := with_sphere_name (marker_name (num_points w)) p3]>) w2'))
            = [sphere_of (Z.of_nat i) q]).
    rewrite named_put_sphere.
    destruct (decide (i = length l)) as [->|Hne].
    + rewrite decide_True by done.
      change (control_points (scene (put_sphere (length l) (num_points w) p4
                 (set_control_points
                    (<[length l := with_sphere_name (marker_name (num_points w)) p3]>) w2')))
              !! length l = Some q) in Hq.
      simpl in Hq. rewrite list_lookup_insert_eq in Hq.
      * by simplify_eq.
      * rewrite length_insert. apply lookup_lt_Some in Hp4. simpl in Hp4.
        by rewrite length_insert in Hp4.
    + rewrite decide_False
        by (unfold num_points; fold l; intros E; apply marker_name_inj in E; lia).
      rewrite named_set_control_points, Hn2
        by (intros E; apply marker_name_inj in E; lia).
      rewrite Hs in Hq. simpl in Hq. fold l in Hq.
      assert (Hi : i < length l).
      { apply lookup_lt_Some in Hq. rewrite length_app in Hq. simpl in Hq. lia. }
      rewrite lookup_app_l in Hq by done.
      by apply Hm.
Qed.

(** ** Moves within the list *)

(** X7: with the index and the target in bounds, move exchanges the two
    neighbours and nothing else: each of the two is at the other's place with
    its coordinates and is renamed after its new index, every other point
    keeps its place, coordinates and marker name, the active index is the
    target, and nothing is reported. *)
Theorem move_control_point_swaps (direction : UpDown) (index : Z) (w : World) :
  (0 <= index < num_points w)%Z ->
  (0 <= move_target direction index < num_points w)%Z ->
  exists w' p q,
    move_control_point direction index w = (Ret FINISHED, w')
    /\ control_points (scene w) !! Z.to_nat index = Some p
    /\ control_points (scene w) !! Z.to_nat (move_target direction index) = Some q
    /\ control_points (scene w') !! Z.to_nat (move_target direction index)
       = Some (with_sphere_name (marker_name (move_target direction index)) p)
    /\ control_points (scene w') !! Z.to_nat index
       = Some (with_sphere_name (marker_name index) q)
    /\ (forall j, j <> Z.to_nat index -> j <> Z.to_nat (move_target direction index) ->
          control_points (scene w') !! j = control_points (scene w) !! j)
    /\ active_control_point_index (scene w') = move_target direction index
    /\ reports w' = reports w.
Proof.
  intros Hi Ht.
  assert (Hne : Z.to_nat index <> Z.to_nat (move_target direction index)).
  { unfold move_target in *. destruct direction; lia. }
  destruct (lookup_lt_is_Some_2 (control_points (scene w)) (Z.to_nat index)
              ltac:(unfold num_points in Hi; lia)) as [p Hp].
  destruct (lookup_lt_is_Some_2 (control_points (scene w))
              (Z.to_nat (move_target direction index))
              ltac:(unfold num_points in Ht; lia)) as [q Hq].
  destruct (move_control_point_in_range direction index w p q Hp Hq
              ltac:(lia) (proj1 Ht)) as (w' & Hrun & Hs & Hr).
  exists w', p, q. split; [done|]. split; [done|]. split; [done|].
  rewrite Hs. simpl. fold (move_target direction index).
  split.
  { apply list_lookup_insert_eq. rewrite length_insert. by eapply lookup_lt_Some. }
  split.
  { rewrite list_lookup_insert_ne by done.
    apply list_lookup_insert_eq. by eapply lookup_lt_Some. }
  split; [|done].
  intros j Hj1 Hj2. by rewrite !list_lookup_insert_ne by done.
Qed.

(** X8: a move followed by the opposite move from the target brings every
    position back and the active index back to the index; the two points end
    renamed after their own indices, so a list whose two marker names agreed
    with the indices is the same list again. *)
Theorem move_there_and_back (direction : UpDown) (index : Z) (w : World) :
  (0 <= index < num_points w)%Z ->
  (0 <= move_target direction index < num_points w)%Z ->
  exists w1 w2,
    move_control_point direction index w = (Ret FINISHED, w1)
    /\ move_control_point (opposite direction) (move_target direction index) w1
       = (Ret FINISHED, w2)
    /\ positions w2 = positions w
    /\ active_control_point_index (scene w2) = index
    /\ (forall p q,
          control_points (scene w) !! Z.to_nat index = Some p ->
          control_points (scene w) !! Z.to_nat (move_target direction index) = Some q ->
          sphere_name p = marker_name index ->
          sphere_name q = marker_name (move_target direction index) ->
          control_points (scene w2) = control_points (scene w)).
Proof.
  intros Hi Ht.
  set (t := move_target direction index) in *.
  assert (Hback : move_target (opposite direction) t = index).
  { unfold t, move_target, opposite. destruct direction; lia. }
  assert (Hne : Z.to_nat index <> Z.to_nat t).
  { unfold t, move_target in *. destruct direction; lia. }
  set (l := control_points (scene w)) in *.
  destruct (lookup_lt_is_Some_2 l (Z.to_nat index)
              ltac:(unfold num_points in Hi; fold l in Hi; lia)) as [p Hp].
  destruct (lookup_lt_is_Some_2 l (Z.to_nat t)
              ltac:(unfold num_points in Ht; fold l in Ht; lia)) as [q Hq].
  destruct (move_control_point_in_range direction index w p q Hp Hq
              ltac:(lia) (proj1 Ht)) as (w1 & H1 & Hs1 & _).
  fold (move_target direction index) in Hs1. fold t l in Hs1.
  assert (Hp1 : control_points (scene w1) !! Z.to_nat t
                = Some (with_sphere_name (marker_name t) p)).
  { rewrite Hs1. simpl. apply list_lookup_insert_eq. rewrite length_insert.
    by eapply lookup_lt_Some. }
  assert (Hq1 : control_points (scene w1)
                  !! Z.to_nat (move_target (opposite direction) t)
                = Some (with_sphere_name (marker_name index) q)).
  { rewrite Hback, Hs1. simpl. rewrite list_lookup_insert_ne by done.
    apply list_lookup_insert_eq. by eapply lookup_lt_Some. }
  assert (Hb0 : (0 <= move_target (opposite direction) t)%Z) by (rewrite Hback; lia).
  destruct (move_control_point_in_range (opposite direction) t w1 _ _ Hp1 Hq1
              (proj1 Ht) Hb0) as (w2 & H2 & Hs2 & _).
  fold (move_target (opposite direction) t) in Hs2. rewrite Hback in Hs2.
  assert (Hc2 : control_points (scene w2)
                = <[Z.to_nat index := with_sphere_name (marker_name index) p]>
                    (<[Z.to_nat t := with_sphere_name (marker_name t) q]> l)).
  { rewrite Hs2, Hs1. simpl. apply list_eq. intros j.
    destruct (decide (j = Z.to_nat index)) as [->|Hj1].
    { rewrite !list_lookup_insert_eq;
        [reflexivity|rewrite ?length_insert; by eapply lookup_lt_Some..]. }
    rewrite !(list_lookup_insert_ne _ (Z.to_nat index) j) by done.
    destruct (decide (j = Z.to_nat t)) as [->|Hj2].
    { rewrite !list_lookup_insert_eq;
        [reflexivity|rewrite ?length_insert; by eapply lookup_lt_Some..]. }
    rewrite !(list_lookup_insert_ne _ (Z.to_nat t) j) by done.
    by rewrite list_lookup_insert_ne by done. }
  exists w1, w2. split; [done|]. split; [done|]. split.
  { unfold positions. fold l. rewrite Hc2, !list_fmap_insert. simpl.
    rewrite !list_insert_id; [done|..].
    - by rewrite list_lookup_fmap, Hq.
    - rewrite list_insert_id by (by rewrite list_lookup_fmap, Hq).
      by rewrite list_lookup_fmap, Hp. }
  split; [by rewrite Hs2|].
  intros p' q' Hp' Hq' Enp Enq.
  rewrite Hp in Hp'. rewrite Hq in Hq'.
  injection Hp' as <-. injection Hq' as <-. rewrite Hc2.
  assert (Ep : with_sphere_name (marker_name index) p = p).
  { rewrite <- Enp. by destruct p. }
  assert (Eq : with_sphere_name (marker_name t) q = q).
  { rewrite <- Enq. by destruct q. }
  rewrite Ep, Eq. rewrite !list_insert_id; try done.
  by rewrite list_insert_id.
Qed.

(** ** Add and remove *)

Lemma delete_insert_at {A} (i : nat) (a : A) (l : list A) :
  i <= length l -> delete i (insert_at i a l) = l.
Proof.
  intros Hi. unfold insert_at.
  replace i with (length (take i l)) at 1 by (rewrite length_take; lia).
  by rewrite delete_middle, take_drop.
Qed.

(** X9: remove at the active index right after add undoes the insertion:
    for every index argument of add, the sequence of positions is the one
    before the add. *)
Theorem add_then_remove (index : Z) (w : World) :
  exists w1 w2,
    add_control_point index w = (Ret FINISHED, w1)
    /\ remove_control_point (active_control_point_index (scene w1)) w1
       = (Ret FINISHED, w2)
    /\ positions w2 = positions w
    /\ num_points w2 = num_points w.
Proof.
  assert (Hadd : exists w1 (pos : nat),
            add_control_point index w = (Ret FINISHED, w1)
            /\ active_control_point_index (scene w1) = Z.of_nat pos
            /\ pos <= length (positions w)
            /\ positions w1 = insert_at pos (zero, zero, zero) (positions w)).
  { assert (Hlen : length (positions w) = length (control_points (scene w))).
    { unfold positions. by rewrite length_fmap. }
    destruct (decide (0 <= index <= num_points w)%Z) as [Hin|Hout].
    - destruct (add_insert_scene index w Hin) as (w1 & Hrun & Hs & _).
      exists w1, (Z.to_nat index). split; [done|]. rewrite Hs. simpl.
      split; [lia|]. split; [unfold num_points in Hin; lia|].
      unfold positions. rewrite Hs. simpl.
      by rewrite position_in_sync, fmap_insert_at.
    - destruct (add_append_scene index w ltac:(lia)) as (w1 & Hrun & Hs & _).
      exists w1, (length (control_points (scene w))). split; [done|].
      rewrite Hs. simpl. split; [done|]. split; [lia|].
      unfold positions. rewrite Hs. simpl.
      by rewrite fmap_app, <- (length_fmap position), insert_at_end. }
  destruct Hadd as (w1 & pos & H1 & Hact & Hpos & Hp1).
  assert (Hn1 : num_points w1 = (Z.of_nat (length (positions w)) + 1)%Z).
  { unfold num_points. rewrite <- (length_fmap position).
    fold (positions w1). rewrite Hp1, length_insert_at. lia. }
  destruct (remove_control_point_in_range (active_control_point_index (scene w1)) w1)
    as (w2 & H2 & Hs2 & _); [lia|].
  exists w1, w2. split; [done|]. split; [done|].
  assert (Hp2 : positions w2 = positions w).
  { unfold positions at 1. rewrite Hs2. simpl. rewrite list_fmap_delete.
    fold (positions w1). rewrite Hp1, Hact, Nat2Z.id. by apply delete_insert_at. }
  split; [done|].
  unfold num_points. rewrite <- !(length_fmap position).
  fold (positions w2) (positions w). by rewrite Hp2.
Qed.

(** ** Selecting the curve type *)

(** X10: the curve type selected decides the spline that generate builds: it
    is a NURBS spline, of the order the host keeps for [min(4, n)], when the
    type is "NURBS" and a Bezier spline for every other string; in both cases
    the control points, one per list point in order, come from the list as
    it is, and the list is not changed. *)
Theorem select_curve_type_then_generate (t : string) (w : World) :
  control_points (scene w) <> [] ->
  exists w1 w2 ob name,
    select_curve_type t w = (Ret FINISHED, w1)
    /\ generate_curve w1 = (Ret FINISHED, w2)
    /\ curve_type (scene w2) = t
    /\ control_points (scene w2) = control_points (scene w)
    /\ objects (bdata w2) = objects (bdata w) ++ [ob]
    /\ ob_data ob
       = CurveObject (mkCurve name "3D"
           [if decide (t = "NURBS")
            then NurbsSpline (nurbs_point <$> control_points (scene w))
                             (Z.max 2 (Z.min 4 (num_points w))) true
            else BezierSpline (bezier_anchor <$> control_points (scene w))]).
Proof.
  intros Hne.
  pose (w1 := (select_curve_type t w).2).
  assert (Hne1 : control_points (scene w1) <> []) by done.
  eexists w1, _, (curve_object w1 (built_spline w1)),
          (unique_name (curves (bdata w1)) (requested_name w1)).
  split; [reflexivity|].
  split; [exact (generate_curve_run w1 Hne1)|].
  split; [done|]. split; [done|]. split; [done|].
  cbn [curve_object ob_data]. unfold built_spline.
  change (curve_type (scene w1)) with t.
  destruct (decide (t = "NURBS")); reflexivity.
Qed.

(** ** Registration *)

Lemma marker_name_0 : marker_name 0 = "ControlPoint_0".
Proof. vm_compute. reflexivity. Qed.

(** X11: register leaves a list that is not empty alone, and seeds an empty
    one with exactly one point, at the origin, named "ControlPoint_0", with
    its sphere in place (at the origin itself, as the host's limit leaves the
    origin where it is) and the markers' collection present.  After register
    the list is never empty, so generate returns FINISHED. *)
Theorem register_seeds_one_point (w : World) :
  exists w',
    register w = (Ret tt, w')
    /\ (control_points (scene w) <> [] -> w' = w)
    /\ (control_points (scene w) = [] ->
          control_points (scene w') = [mkPoint zero zero zero "ControlPoint_0"]
          /\ marked w'
          /\ "Control Points" ∈ collections (bdata w')
          /\ (location_limit zero = zero ->
                named "ControlPoint_0" w'
                = [mkObject "ControlPoint_0"
                     (UVSphere (zero, zero, zero) "RedControlPointMaterial")
                     "Control Points"]))
    /\ control_points (scene w') <> []
    /\ (exists w'', generate_curve w' = (Ret FINISHED, w'')).
Proof.
  assert (Hreg : exists w',
    register w = (Ret tt, w')
    /\ (control_points (scene w) <> [] -> w' = w)
    /\ (control_points (scene w) = [] ->
          control_points (scene w') = [mkPoint zero zero zero "ControlPoint_0"]
          /\ marked w'
          /\ "Control Points" ∈ collections (bdata w'))).
  { unfold register. unfold bind at 1, get_world at 1.
    destruct (control_points (scene w)) as [|p0 l0] eqn:Hl.
    - unfold bind at 1, coll_add at 1. rewrite Hl. simpl length.
      set (w1 := set_control_points _ w).
      assert (Hp1 : control_points (scene w1) !! 0 = Some (mkPoint zero zero zero "")).
      { simpl. by rewrite Hl. }
      destruct (set_xyz_scene 0 (zero, zero, zero) w1 _ Hp1) as (w2 & H2 & Hs2 & Hr2).
      rewrite (bind_run _ _ _ _ _ H2).
      assert (Hc2 : control_points (scene w2)
                    = [mkPoint zero zero zero (marker_name 0)]).
      { rewrite Hs2. simpl. by rewrite Hl. }
      assert (Hp2 : control_points (scene w2) !! 0
                    = Some (mkPoint zero zero zero (marker_name 0))) by by rewrite Hc2.
      rewrite (bind_run _ _ _ _ _ (assign_run _ _ _ _ Hp2)).
      unfold modify.
      eexists. split; [reflexivity|]. split; [done|]. intros _.
      split; [simpl; by rewrite Hc2|]. split; [|simpl; apply elem_of_ensure].
      (* the sphere is the one the last callback has put *)
      unfold set_xyz in H2.
      apply bind_inv in H2 as ([] & wa & _ & H2).
      apply bind_inv in H2 as ([] & wb & Hb & H2).
      pose proof H2 as H2'. unfold set_z in H2'.
      apply bind_inv in H2' as ([] & wc & Hc & _).
      apply assign_inv in Hc as (pb & Hpb & _).
      unfold set_z in H2. rewrite (assign_update_run 0 _ wb pb Hpb) in H2.
      destruct (assign_update_updated 0
                  (fun q => mkPoint (x q) (y q) zero (sphere_name q)) wb pb Hpb)
        as (Hcz & Hnz & _ & _).
      injection H2 as E2. simpl in E2. rewrite E2 in Hcz, Hnz.
      change (Z.of_nat 0) with 0%Z in Hcz, Hnz.
      intros i q Hq.
      change (control_points (scene w2) !! i = Some q) in Hq
        || (simpl in Hq; rewrite Hc2 in Hq).
      destruct i as [|i]; [|done]. simpl in Hq.
      change (named (marker_name 0) w2 = [sphere_of 0 q]).
      rewrite Hnz. rewrite Hc2 in Hcz.
      destruct (control_points (scene wb)) as [|pb' lb]; [done|].
      simpl in Hcz. injection Hq as <-. injection Hcz as Ex Ey _.
      unfold sphere_of. simpl. by rewrite <- Ex, <- Ey.
    - eexists. split; [reflexivity|]. split; [done|]. intros E. discriminate. }
  destruct Hreg as (w' & Hrun & Hkeep & Hseed).
  assert (Hne : control_points (scene w') <> []).
  { destruct (control_points (scene w)) as [|p0 l0] eqn:Hl.
    - destruct (Hseed eq_refl) as (Hc & _ & _). by rewrite Hc.
    - rewrite (Hkeep ltac:(done)). by rewrite Hl. }
  exists w'. split; [done|]. split; [done|]. split.
  { intros Hl. destruct (Hseed Hl) as (Hc & Hm & Hcoll).
    split; [done|]. split; [done|]. split; [done|]. intros Hz.
    assert (Hp : control_points (scene w') !! 0
                 = Some (mkPoint zero zero zero "ControlPoint_0")) by (by rewrite Hc).
    specialize (Hm 0 _ Hp). change (Z.of_nat 0) with 0%Z in Hm.
    unfold sphere_of in Hm. rewrite marker_name_0 in Hm. rewrite Hm.
    cbn [x y z]. by rewrite Hz. }
  split; [done|].
  eexists. by apply generate_curve_run.
Qed.

(** ** The list rows *)

Lemma move_control_point_returns (direction : UpDown) (index : Z) w :
  (0 <= index < num_points w)%Z ->
  (0 <= move_target direction index < num_points w)%Z ->
  exists w', move_control_point direction index w = (Ret FINISHED, w').
Proof.
  intros Hi Ht.
  destruct (lookup_lt_is_Some_2 (control_points (scene w)) (Z.to_nat index)
              ltac:(unfold num_points in Hi; lia)) as [p Hp].
  destruct (lookup_lt_is_Some_2 (control_points (scene w))
              (Z.to_nat (move_target direction index))
              ltac:(unfold num_points in Ht; lia)) as [q Hq].
  destruct (move_control_point_in_range direction index w p q Hp Hq
              ltac:(lia) (proj1 Ht)) as (w' & Hrun & _).
  by exists w'.
Qed.

(** X12: the row drawn for an item of the list offers only buttons that are
    safe to press: every button is bound to a move of this item whose target
    is in bounds or to the removal of this item, and running it returns
    FINISHED.  In the two layouts that draw, the up button is there exactly
    when the item is not the first, the down button exactly when it is not
    the last, and the remove button always; drawing changes nothing. *)
Theorem draw_item_buttons_in_bounds (layout_type : string) (index : Z) (w : World) :
  (0 <= index < num_points w)%Z ->
  exists row,
    draw_item layout_type index w = (Ret row, w)
    /\ (forall call text icon emboss,
          operator call text icon emboss ∈ row ->
          (exists w', execute call w = (Ret FINISHED, w'))
          /\ match call with
             | call_move_control_point direction i =>
                 i = index /\ (0 <= move_target direction i < num_points w)%Z
             | call_remove_control_point i => i = index
             end)
    /\ (layout_type = "DEFAULT" \/ layout_type = "COMPACT" ->
          (operator (call_move_control_point UP index) "" "TRIA_UP" false ∈ row
             <-> (0 < index)%Z)
          /\ (operator (call_move_control_point DOWN index) "" "TRIA_DOWN" false ∈ row
                <-> (index < num_points w - 1)%Z)
          /\ operator (call_remove_control_point index) "" "X" false ∈ row).
Proof.
  intros Hidx. unfold draw_item.
  destruct (decide (layout_type = "DEFAULT" \/ layout_type = "COMPACT")) as [Hl|Hl].
  - rewrite (bind_run _ _ _ _ _ (len_run w)). unfold ret.
    eexists. split; [reflexivity|].
    destruct (Z.ltb_spec 0 index) as [Hup|Hup];
      destruct (Z.ltb_spec index (num_points w - 1)) as [Hdown|Hdown].
    all: split;
      [ intros call text icon emboss Hin;
        repeat (apply elem_of_cons in Hin as [Hin|Hin]; [try discriminate|]);
        try (by apply elem_of_nil in Hin);
        injection Hin as -> _ _ _; simpl;
        (split; [|unfold move_target; lia]);
        first [ apply move_control_point_returns; unfold move_target; lia
              | destruct (remove_control_point_in_range index w Hidx) as (w' & Hr & _);
                by exists w' ]
      | intros _; split; [|split];
        [ split; [intros Hin|intros Hlt];
          [ repeat (apply elem_of_cons in Hin as [Hin|Hin]; [try discriminate|]);
            try (by apply elem_of_nil in Hin); try lia;
            injection Hin as E; discriminate
          | try lia; by left ]
        | split; [intros Hin|intros Hlt];
          [ repeat (apply elem_of_cons in Hin as [Hin|Hin]; [try discriminate|]);
            try (by apply elem_of_nil in Hin); try lia;
            injection Hin as E; discriminate
          | try lia; right; by left ]
        | do 6 right; by left ] ].
  - eexists. split; [reflexivity|]. split; [|done].
    intros call text icon emboss Hin. by apply elem_of_nil in Hin.
Qed.

(** ** At the ends of the list *)

(** X14: a move whose target is out of bounds (the first point up, the last
    point down, any move on an empty list) returns FINISHED and leaves the
    world as it is, without a report; a move up from the index one past the
    end of a list that is not empty raises [IndexError], and the world is
    as it was. *)
Theorem move_control_point_at_the_ends (w : World) :
  (forall direction index,
     ~ (0 <= move_target direction index < num_points w)%Z ->
     move_control_point direction index w = (Ret FINISHED, w))
  /\ move_control_point UP 0 w = (Ret FINISHED, w)
  /\ move_control_point DOWN (num_points w - 1) w = (Ret FINISHED, w)
  /\ ((1 <= num_points w)%Z ->
      move_control_point UP (num_points w) w = (Raise IndexError, w)).
Proof.
  split; [|split; [|split]].
  - intros direction index Hout. by apply move_control_point_target_out.
  - apply move_control_point_target_out. lia.
  - apply move_control_point_target_out. lia.
  - apply move_control_point_past_end.
Qed.

(** X15: reorder with an index outside the list moves no point, yet it is
    no no-op: the positions are as before, every marker is renamed after its
    index, and the active index is set to [new_index], in the list or not. *)
Theorem reorder_control_point_out_of_range (old_index new_index : Z) (w : World) :
  ~ ((0 <= old_index < num_points w)%Z /\ (0 <= new_index < num_points w)%Z) ->
  exists w',
    reorder_control_point old_index new_index w = (Ret FINISHED, w')
    /\ positions w' = positions w
    /\ control_points (scene w') = in_sync (control_points (scene w))
    /\ active_control_point_index (scene w') = new_index.
Proof.
  intros Hout.
  destruct (reorder_control_point_scene old_index new_index w) as (w' & Hrun & Hs & _).
  rewrite list_move_out_of_range in Hs by exact Hout.
  exists w'. split; [done|]. unfold positions. rewrite Hs. simpl.
  split; [apply position_in_sync|done].
Qed.

(** X16: the length of the list after each operator.  Add makes it one
    longer for every index; remove makes it one shorter for an index in
    range and keeps it otherwise; reorder, show, hide and generate keep it
    for every argument, and so does move for an index in range.  All of
    them return. *)
Theorem operators_length (w : World) :
  (forall index, exists w',
     add_control_point index w = (Ret FINISHED, w')
     /\ num_points w' = (num_points w + 1)%Z)
  /\ (forall index, exists w',
        remove_control_point index w = (Ret FINISHED, w')
        /\ num_points w'
           = if decide (0 <= index < num_points w)%Z
             then (num_points w - 1)%Z else num_points w)
  /\ (forall old_index new_index, exists w',
        reorder_control_point old_index new_index w = (Ret FINISHED, w')
        /\ num_points w' = num_points w)
  /\ (forall direction index, (0 <= index < num_points w)%Z -> exists w',
        move_control_point direction index w = (Ret FINISHED, w')
        /\ num_points w' = num_points w)
  /\ (exists w', show_control_points w = (Ret FINISHED, w')
                 /\ num_points w' = num_points w)
  /\ (exists w', hide_control_points w = (Ret FINISHED, w')
                 /\ num_points w' = num_points w)
  /\ (exists st w', generate_curve w = (Ret st, w')
                    /\ num_points w' = num_points w).
Proof.
  repeat apply conj.
  - intros index. destruct (decide (0 <= index <= num_points w)%Z) as [Hin|Hout].
    + destruct (add_insert_scene index w Hin) as (w' & Hrun & Hs & _).
      exists w'. split; [done|]. unfold num_points in *. rewrite Hs. simpl.
      rewrite length_in_sync, length_insert_at. lia.
    + destruct (add_append_scene index w ltac:(lia)) as (w' & Hrun & Hs & _).
      exists w'. split; [done|]. unfold num_points in *. rewrite Hs. simpl.
      rewrite length_app. simpl. lia.
  - intros index. destruct (decide (0 <= index < num_points w)%Z) as [Hin|Hout].
    + destruct (remove_control_point_in_range index w Hin) as (w' & Hrun & Hs & _).
      exists w'. split; [done|]. unfold num_points in *. rewrite Hs. simpl.
      rewrite length_delete; [lia|]. apply lookup_lt_is_Some_2. lia.
    + eexists. split; [by apply remove_control_point_out_of_range_run|done].
  - intros old_index new_index.
    destruct (reorder_control_point_scene old_index new_index w) as (w' & Hrun & Hs & _).
    exists w'. split; [done|]. unfold num_points. rewrite Hs. simpl.
    by rewrite length_in_sync, length_list_move.
  - intros direction index Hidx.
    destruct (decide (0 <= move_target direction index < num_points w)%Z) as [Hin|Hout].
    + destruct (lookup_lt_is_Some_2 (control_points (scene w)) (Z.to_nat index)
                  ltac:(unfold num_points in Hidx; lia)) as [p Hp].
      destruct (lookup_lt_is_Some_2 (control_points (scene w))
                  (Z.to_nat (move_target direction index))
                  ltac:(unfold num_points in Hin; lia)) as [q Hq].
      destruct (move_control_point_in_range direction index w p q Hp Hq
                  ltac:(lia) (proj1 Hin)) as (w' & Hrun & Hs & _).
      exists w'. split; [done|]. unfold num_points. rewrite Hs. simpl.
      by rewrite !length_insert.
    + exists w. split; [by apply move_control_point_target_out|done].
  - destruct (show_control_points_scene w) as (w' & Hrun & Hs & _).
    exists w'. split; [done|]. unfold num_points. rewrite Hs. simpl.
    by rewrite length_in_sync.
  - destruct (hide_control_points_scene w) as (w' & Hrun & Hs & _).
    exists w'. split; [done|]. unfold num_points. by rewrite Hs.
  - destruct (control_points (scene w)) as [|p l] eqn:Hl.
    + eexists _, _. split.
      { unfold generate_curve, bind, get_world. rewrite Hl. reflexivity. }
      done.
    + eexists _, _. split.
      { apply generate_curve_run. by rewrite Hl. }
      done.
Qed.

(** ** A sphere left behind *)

Lemma in_sync_fixed_names l :
  in_sync l = l ->
  forall (j : nat) q, l !! j = Some q -> sphere_name q = marker_name (Z.of_nat j).
Proof.
  intros Hl j q Hq. rewrite <- Hl, in_sync_lookup in Hq.
  destruct (l !! j); by simplify_eq/=.
Qed.

(** X17: the sphere of a point is looked up under the name of the point's
    index, not under the name the point carries.  From a list whose markers
    agree with the indices and whose points are all marked, after the point
    at [index] is removed and a coordinate of its successor is assigned, the
    successor has a new sphere under the name of [index], and its old sphere
    is still there under the name of [index + 1], where it was, while no
    point carries that name any more.  A sphere is placed at the point's
    coordinates as the host limits them. *)
Theorem sphere_left_behind (index : Z) (v : coord) (w : World)
    (p : ControlPointProperty) :
  in_sync (control_points (scene w)) = control_points (scene w) ->
  marked w ->
  (0 <= index)%Z ->
  control_points (scene w) !! S (Z.to_nat index) = Some p ->
  exists w1 w2,
    remove_control_point index w = (Ret FINISHED, w1)
    /\ set_x (Z.to_nat index) v w1 = (Ret tt, w2)
    /\ control_points (scene w2) !! Z.to_nat index
       = Some (mkPoint v (y p) (z p) (marker_name index))
    /\ named (marker_name index) w2
       = [sphere_of index (mkPoint v (y p) (z p) (marker_name index))]
    /\ named (marker_name (index + 1)) w2 = [sphere_of (index + 1) p]
    /\ (forall (j : nat) q, control_points (scene w2) !! j = Some q ->
          sphere_name q <> marker_name (index + 1)).
Proof.
  intros Hsync Hm Hi Hp.
  set (l := control_points (scene w)) in *.
  set (i := Z.to_nat index) in *.
  assert (Ei : Z.of_nat i = index) by (unfold i; lia).
  assert (Hlen : S i < length l) by by eapply lookup_lt_Some.
  pose proof (in_sync_fixed_names l Hsync) as Hnames.
  destruct (lookup_lt_is_Some_2 l i ltac:(lia)) as [p0 Hp0].
  assert (Hidx : (0 <= index < num_points w)%Z) by (unfold num_points; fold l; lia).
  pose proof (remove_control_point_run index w p0 Hidx Hp0) as H1.
  set (w1 := mkWorld _ _ _) in H1.
  assert (Hn1 : forall nm, named nm w1
            = if decide (nm = sphere_name p0 /\ nm <> "") then [] else named nm w).
  { intros nm. apply named_removed. }
  assert (Hc1 : control_points (scene w1) = delete i l) by done.
  assert (Hp1 : control_points (scene w1) !! i = Some p).
  { by rewrite Hc1, list_lookup_delete_ge by lia. }
  set (fx := fun q => mkPoint v (y q) (z q) (sphere_name q)).
  pose proof (assign_update_run i fx w1 p Hp1) as H2.
  destruct (assign_update_updated i fx w1 p Hp1) as (Hc2 & Hn2 & Hf2 & _).
  set (w2 := put_sphere _ _ _ _) in *.
  rewrite Ei in Hc2, Hn2, Hf2.
  assert (Hne : marker_name (index + 1) <> marker_name index).
  { intros E. apply marker_name_inj in E. lia. }
  exists w1, w2. split; [done|]. split; [exact H2|].
  split.
  { rewrite Hc2. apply list_lookup_insert_eq. rewrite Hc1, length_delete by eauto. lia. }
  split; [exact Hn2|]. split.
  - rewrite (Hf2 _ Hne), Hn1.
    rewrite decide_False
      by (intros [E _]; rewrite (Hnames i p0 Hp0), Ei in E; done).
    replace (index + 1)%Z with (Z.of_nat (S i)) by lia. by apply Hm.
  - intros j q Hq E. rewrite Hc2 in Hq.
    destruct (decide (j = i)) as [->|Hji].
    + rewrite list_lookup_insert_eq in Hq
        by (rewrite Hc1, length_delete by eauto; lia).
      injection Hq as <-. simpl in E. by apply Hne.
    + rewrite list_lookup_insert_ne in Hq by done. rewrite Hc1 in Hq.
      destruct (decide (j < i)) as [Hlt|Hge].
      * rewrite list_lookup_delete_lt in Hq by done.
        rewrite (Hnames j q Hq) in E. apply marker_name_inj in E. lia.
      * rewrite list_lookup_delete_ge in Hq by lia.
        rewrite (Hnames (S j) q Hq) in E. apply marker_name_inj in E. lia.
Qed.

End PathGeneration.

(** * Worked instances

    The operators at integer coordinates, on small worlds without objects. *)

Local Open Scope Z_scope.

Local Abbreviation pt := (mkPoint Z).
Local Abbreviation limit := host_location_limit.
Local Abbreviation unique := host_unique_name.
Local Abbreviation world_of ty l :=
  (mkWorld Z (mkScene Z l 0 ty "Path") (mkData Z [] [] [] []) []).
Local Abbreviation two_points :=
  [pt 0 0 0 "ControlPoint_0"; pt 1 0 0 "ControlPoint_1"].
Local Abbreviation three_points :=
  [pt 2 0 0 "ControlPoint_0"; pt 0 0 0 "ControlPoint_1"; pt 1 0 0 "ControlPoint_2"].

(** C1: the remove operator leaves the markers after the removed point
    named after their old indices.  From two points whose markers agree with
    the indices, removing the first leaves the second at index 0 under the
    name "ControlPoint_1". *)
Lemma remove_control_point_stale_marker :
  exists w',
    remove_control_point Z 0 (world_of "BEZIER" two_points) = (Ret FINISHED, w')
    /\ control_points Z (scene Z w') = [pt 1 0 0 "ControlPoint_1"]
    /\ markers_agree Z two_points
    /\ ~ markers_agree Z (control_points Z (scene Z w')).
Proof.
  eexists. split; [vm_compute; reflexivity|]. split; [reflexivity|]. split.
  - intros [|[|i]] p Hi _; simplify_eq/=; vm_compute; reflexivity.
  - intros H. specialize (H 0%nat (pt 1 0 0 "ControlPoint_1") eq_refl).
    vm_compute in H. by specialize (H ltac:(discriminate)).
Qed.

Lemma add_control_point_inserts_witness :
  exists w',
    add_control_point Z 0 limit 1 (world_of "BEZIER" two_points) = (Ret FINISHED, w')
    /\ positions Z w' = [(0, 0, 0); (0, 0, 0); (1, 0, 0)]
    /\ active_control_point_index Z (scene Z w') = 1.
Proof.
  destruct (add_control_point_inserts Z 0 limit 1 (world_of "BEZIER" two_points))
    as (w' & Hrun & _ & Hin).
  destruct Hin as (Hpos & _ & _ & _ & Hact); [unfold num_points; simpl; lia|].
  exists w'. split; [exact Hrun|]. split; [exact Hpos|exact Hact].
Defined.

(** C3, as the claim states it, fails: with index 5 on a list of two points
    the remove operator raises no [IndexError]. *)
Lemma remove_control_point_no_IndexError :
  ~ exists w',
      remove_control_point Z 5 (world_of "BEZIER" two_points) = (Raise IndexError, w').
Proof. intros [w' H]. vm_compute in H. discriminate. Qed.

Lemma remove_control_point_out_of_range_witness :
  remove_control_point Z 5 (world_of "BEZIER" two_points)
  = (Ret FINISHED,
     mkWorld Z (mkScene Z two_points 0 "BEZIER" "Path") (mkData Z [] [] [] [])
             [(WARNING, "Invalid point index")]).
Proof.
  apply (remove_control_point_out_of_range Z 5 (world_of "BEZIER" two_points)).
  unfold num_points. simpl. lia.
Defined.

Local Abbreviation nurbs_order_of n k :=
  (exists w' ob name pts,
     generate_curve Z 0 1 unique (world_of "NURBS" (replicate n (pt 0 0 0 "")))
       = (Ret FINISHED, w')
     /\ objects Z (bdata Z w') = [ob]
     /\ ob_data Z ob = CurveObject Z (mkCurve Z name "3D" [NurbsSpline Z pts k true])
     /\ pts = replicate n (0, 0, 0, 1)).

(** C4, as the claim states it, fails for one point: the spline that
    generate builds from a single point has order 2, not [min(4, 1) = 1]. *)
Lemma generate_curve_nurbs_one_point :
  (exists w',
     generate_curve Z 0 1 unique (world_of "NURBS" [pt 0 0 0 ""]) = (Ret FINISHED, w')
     /\ objects Z (bdata Z w')
        = [mkObject Z "PathObj"
             (CurveObject Z (mkCurve Z "Path" "3D" [NurbsSpline Z [(0, 0, 0, 1)] 2 true]))
             "Scene Collection"])
  /\ ~ (exists w' ob name pts flag,
          generate_curve Z 0 1 unique (world_of "NURBS" [pt 0 0 0 ""]) = (Ret FINISHED, w')
          /\ objects Z (bdata Z w') = [ob]
          /\ ob_data Z ob
             = CurveObject Z (mkCurve Z name "3D" [NurbsSpline Z pts (Z.min 4 1) flag])).
Proof.
  split.
  - eexists. split; vm_compute; reflexivity.
  - intros (w' & ob & name & pts & flag & Hrun & Hobj & Hdata).
    vm_compute in Hrun. injection Hrun as <-.
    vm_compute in Hobj. injection Hobj as <-.
    vm_compute in Hdata. discriminate.
Qed.

Lemma generate_curve_nurbs_witness :
  nurbs_order_of 1%nat 2 /\ nurbs_order_of 2%nat 2
  /\ nurbs_order_of 3%nat 3 /\ nurbs_order_of 10%nat 4.
Proof.
  repeat apply conj;
    lazymatch goal with
    | |- context [replicate ?n (pt 0 0 0 "")] =>
        destruct (generate_curve_nurbs Z 0 1 unique
                    (world_of "NURBS" (replicate n (pt 0 0 0 "")))
                    eq_refl ltac:(discriminate))
          as (w' & ob & name & Hrun & _ & Hobj & Hdata);
        exists w', ob, name; eexists; split; [exact Hrun|];
        split; [exact Hobj|]; split; [exact Hdata|reflexivity]
    end.
Defined.

Lemma generate_curve_empty_witness :
  generate_curve Z 0 1 unique (world_of "BEZIER" [])
  = (Ret CANCELLED,
     mkWorld Z (mkScene Z [] 0 "BEZIER" "Path") (mkData Z [] [] [] [])
             [(WARNING, "No control points added!")]).
Proof. exact (generate_curve_empty Z 0 1 unique (world_of "BEZIER" []) eq_refl). Defined.

Lemma reorder_control_point_repositions_witness :
  exists w' w'',
    reorder_control_point Z limit 0 2 (world_of "BEZIER" three_points) = (Ret FINISHED, w')
    /\ reorder_control_point Z limit 2 0 w' = (Ret FINISHED, w'')
    /\ active_control_point_index Z (scene Z w') = 2
    /\ positions Z w'' = [(2, 0, 0); (0, 0, 0); (1, 0, 0)]
    /\ positions Z w' !! 2%nat = Some (2, 0, 0)
    /\ positions Z w' !! 0%nat = Some (0, 0, 0)
    /\ positions Z w' !! 1%nat = Some (1, 0, 0).
Proof.
  destruct (reorder_control_point_repositions Z limit 0 2 (world_of "BEZIER" three_points))
    as (w' & w'' & Hrun & Hback & Hact & Hpos & _ & Hin).
  destruct Hin as (Hb & Hshift & _ & _); [unfold num_points; simpl; lia..|].
  exists w', w''. split; [exact Hrun|]. split; [exact Hback|].
  split; [exact Hact|]. split; [exact Hpos|]. split; [exact Hb|].
  split; [apply (Hshift 0%nat)|apply (Hshift 1%nat)]; vm_compute; lia.
Defined.

Lemma add_at_end_equivalent_witness :
  exists w1 w2 w3,
    add_control_point Z 0 limit (-1) (world_of "BEZIER" two_points) = (Ret FINISHED, w1)
    /\ add_control_point Z 0 limit 2 (world_of "BEZIER" two_points) = (Ret FINISHED, w2)
    /\ add_control_point Z 0 limit 7 (world_of "BEZIER" two_points) = (Ret FINISHED, w3)
    /\ positions Z w1 = [(0, 0, 0); (1, 0, 0); (0, 0, 0)]
    /\ positions Z w2 = positions Z w1
    /\ w3 = w1
    /\ scene Z w2 = scene Z w1
    /\ active_control_point_index Z (scene Z w1) = 2.
Proof.
  destruct (add_at_end_equivalent Z 0 limit (world_of "BEZIER" two_points))
    as (w1 & w2 & w3 & H1 & H2 & H3 & Hp1 & Hp2 & _ & Ha1 & _ & _ & He & Hs).
  exists w1, w2, w3. split; [exact H1|]. split; [exact H2|]. split; [exact H3|].
  split; [exact Hp1|]. split; [by rewrite Hp1, Hp2|]. split; [exact He|].
  split; [apply Hs; vm_compute; reflexivity|exact Ha1].
Defined.

(** The three calls of C7 agree on the positions and the active index only:
    after a removal has left a marker stale, adding at [len] renames it and
    adding at [-1] does not. *)
Example add_at_end_markers_differ :
  exists w1 w2,
    add_control_point Z 0 limit (-1) (world_of "BEZIER" [pt 1 0 0 "ControlPoint_1"])
      = (Ret FINISHED, w1)
    /\ add_control_point Z 0 limit 1 (world_of "BEZIER" [pt 1 0 0 "ControlPoint_1"])
       = (Ret FINISHED, w2)
    /\ control_points Z (scene Z w1)
       = [pt 1 0 0 "ControlPoint_1"; pt 0 0 0 "ControlPoint_1"]
    /\ control_points Z (scene Z w2)
       = [pt 1 0 0 "ControlPoint_0"; pt 0 0 0 "ControlPoint_1"].
Proof.
  eexists _, _. split; [vm_compute; reflexivity|].
  split; [vm_compute; reflexivity|]. split; reflexivity.
Qed.

(** C8: the move operator is no no-op when its index is out of range and
    the target is not.  On two points, index [-1] with DOWN renames the last
    point "ControlPoint_-1", creates two spheres and selects index 0; index
    [2] with UP raises [IndexError]. *)
Lemma move_control_point_index_out_of_range :
  move_control_point Z limit DOWN (-1) (world_of "BEZIER" two_points)
  = (Ret FINISHED,
     mkWorld Z
       (mkScene Z [pt 0 0 0 "ControlPoint_0"; pt 1 0 0 "ControlPoint_-1"] 0
                "BEZIER" "Path")
       (mkData Z
          [mkObject Z "ControlPoint_-1" (UVSphere Z (1, 0, 0) "RedControlPointMaterial")
                    "Control Points";
           mkObject Z "ControlPoint_0" (UVSphere Z (0, 0, 0) "RedControlPointMaterial")
                    "Control Points"]
          [] ["Control Points"] ["RedControlPointMaterial"])
       [])
  /\ move_control_point Z limit UP 2 (world_of "BEZIER" two_points)
     = (Raise IndexError, world_of "BEZIER" two_points).
Proof. split; vm_compute; reflexivity. Qed.

Lemma host_unique_name_free (taken : list string) (name : string) :
  name <> EmptyString -> (String.length name <= 63)%nat -> name ∉ taken ->
  unique taken name = name.
Proof. intros _ _ Hfree. unfold host_unique_name. by rewrite decide_False. Qed.



(** ** Instances of the properties of the marker objects and the rows *)

Local Abbreviation sphere nm loc :=
  (mkObject Z nm (UVSphere Z loc "RedControlPointMaterial") "Control Points").
Local Abbreviation marked_world :=
  (mkWorld Z (mkScene Z two_points 0 "BEZIER" "Path")
     (mkData Z [sphere "ControlPoint_0" (0, 0, 0); sphere "ControlPoint_1" (1, 0, 0)]
             [] ["Control Points"] ["RedControlPointMaterial"]) []).

Lemma two_points_agree : markers_agree Z two_points.
Proof. intros [|[|i]] p Hi _; simplify_eq/=; vm_compute; reflexivity. Defined.

(** The point keeps the value assigned; its sphere is placed within the
    host's bounds. *)
Lemma coordinate_assignment_moves_sphere_witness :
  exists wx wy,
    set_x Z limit 1%nat 5 (world_of "BEZIER" two_points) = (Ret tt, wx)
    /\ control_points Z (scene Z wx)
       = [pt 0 0 0 "ControlPoint_0"; pt 5 0 0 "ControlPoint_1"]
    /\ named Z "ControlPoint_1" wx = [sphere "ControlPoint_1" (5, 0, 0)]
    /\ set_y Z limit 1%nat 2199023255552 (world_of "BEZIER" two_points) = (Ret tt, wy)
    /\ control_points Z (scene Z wy)
       = [pt 0 0 0 "ControlPoint_0"; pt 1 2199023255552 0 "ControlPoint_1"]
    /\ named Z "ControlPoint_1" wy = [sphere "ControlPoint_1" (1, 999999995904, 0)].
Proof.
  destruct (coordinate_assignment_moves_sphere Z limit 1%nat 5
              (world_of "BEZIER" two_points) (pt 1 0 0 "ControlPoint_1") eq_refl)
    as (wx & _ & _ & Hx & (Hc & Hn & _ & _) & _).
  destruct (coordinate_assignment_moves_sphere Z limit 1%nat 2199023255552
              (world_of "BEZIER" two_points) (pt 1 0 0 "ControlPoint_1") eq_refl)
    as (_ & wy & _ & _ & _ & Hy & (Hc' & Hn' & _ & _) & _).
  assert (E : marker_name (Z.of_nat 1) = "ControlPoint_1") by (vm_compute; reflexivity).
  rewrite E in Hc, Hn, Hc', Hn'.
  exists wx, wy. split; [exact Hx|].
  split; [rewrite Hc; reflexivity|]. split; [rewrite Hn; reflexivity|].
  split; [exact Hy|].
  split; [rewrite Hc'|rewrite Hn']; reflexivity.
Defined.

Lemma remove_control_point_removes_witness :
  exists w',
    remove_control_point Z 0 marked_world = (Ret FINISHED, w')
    /\ control_points Z (scene Z w') = [pt 1 0 0 "ControlPoint_1"]
    /\ named Z "ControlPoint_0" w' = []
    /\ named Z "ControlPoint_1" w' = [sphere "ControlPoint_1" (1, 0, 0)].
Proof.
  destruct (remove_control_point_removes Z 0 marked_world)
    as (w' & p & Hrun & Hp & Hc & _ & _ & _ & _ & Hn & _);
    [unfold num_points; simpl; lia|].
  simpl in Hp. injection Hp as <-.
  exists w'. split; [exact Hrun|]. split; [rewrite Hc; reflexivity|].
  split; rewrite Hn; reflexivity.
Defined.

Lemma move_control_point_swaps_witness :
  exists w',
    move_control_point Z limit DOWN 0 (world_of "BEZIER" two_points) = (Ret FINISHED, w')
    /\ control_points Z (scene Z w') !! 1%nat = Some (pt 0 0 0 "ControlPoint_1")
    /\ control_points Z (scene Z w') !! 0%nat = Some (pt 1 0 0 "ControlPoint_0")
    /\ active_control_point_index Z (scene Z w') = 1.
Proof.
  destruct (move_control_point_swaps Z limit DOWN 0 (world_of "BEZIER" two_points))
    as (w' & p & q & Hrun & Hp & Hq & Ht & Hi & _ & Ha & _);
    [unfold num_points; simpl; lia..|].
  simpl in Hp, Hq. injection Hp as <-. injection Hq as <-.
  assert (E0 : marker_name 0 = "ControlPoint_0") by (vm_compute; reflexivity).
  assert (E1 : marker_name (move_target DOWN 0) = "ControlPoint_1")
    by (vm_compute; reflexivity).
  rewrite E1 in Ht. rewrite E0 in Hi.
  exists w'. split; [exact Hrun|]. split; [exact Ht|]. split; [exact Hi|exact Ha].
Defined.

Lemma move_there_and_back_witness :
  exists w1 w2,
    move_control_point Z limit DOWN 0 (world_of "BEZIER" three_points) = (Ret FINISHED, w1)
    /\ move_control_point Z limit UP 1 w1 = (Ret FINISHED, w2)
    /\ positions Z w2 = [(2, 0, 0); (0, 0, 0); (1, 0, 0)]
    /\ control_points Z (scene Z w2) = three_points
    /\ active_control_point_index Z (scene Z w2) = 0.
Proof.
  destruct (move_there_and_back Z limit DOWN 0 (world_of "BEZIER" three_points))
    as (w1 & w2 & H1 & H2 & Hp & Ha & Hs);
    [unfold num_points; simpl; lia..|].
  exists w1, w2. split; [exact H1|]. split; [exact H2|]. split; [exact Hp|].
  split; [|exact Ha].
  apply (Hs (pt 2 0 0 "ControlPoint_0") (pt 0 0 0 "ControlPoint_1"));
    [reflexivity|reflexivity|vm_compute; reflexivity..].
Defined.

Lemma select_curve_type_then_generate_witness :
  exists w1 w2 ob name,
    select_curve_type Z "NURBS" (world_of "BEZIER" two_points) = (Ret FINISHED, w1)
    /\ generate_curve Z 0 1 unique w1 = (Ret FINISHED, w2)
    /\ objects Z (bdata Z w2) = [ob]
    /\ ob_data Z ob
       = CurveObject Z (mkCurve Z name "3D"
           [NurbsSpline Z [(0, 0, 0, 1); (1, 0, 0, 1)] 2 true]).
Proof.
  destruct (select_curve_type_then_generate Z 0 1 unique "NURBS"
              (world_of "BEZIER" two_points))
    as (w1 & w2 & ob & name & H1 & H2 & _ & _ & Ho & Hd); [discriminate|].
  exists w1, w2, ob, name. split; [exact H1|]. split; [exact H2|].
  split; [exact Ho|exact Hd].
Defined.

Lemma draw_item_buttons_in_bounds_witness :
  exists row,
    draw_item Z "DEFAULT" 0 (world_of "BEZIER" two_points)
      = (Ret row, world_of "BEZIER" two_points)
    /\ operator (call_move_control_point DOWN 0) "" "TRIA_DOWN" false ∈ row
    /\ (operator (call_move_control_point UP 0) "" "TRIA_UP" false ∉ row)
    /\ operator (call_remove_control_point 0) "" "X" false ∈ row.
Proof.
  destruct (draw_item_buttons_in_bounds Z limit "DEFAULT" 0 (world_of "BEZIER" two_points))
    as (row & Hrun & _ & Hb); [unfold num_points; simpl; lia|].
  destruct Hb as (Hup & Hdown & Hrem); [by left|].
  exists row. split; [exact Hrun|].
  split; [apply Hdown; unfold num_points; simpl; lia|].
  split; [|exact Hrem]. intros Hin. apply Hup in Hin. lia.
Defined.

Lemma marker_agreement_kept_witness :
  keeps_markers Z (reorder_control_point Z limit 0 1) (world_of "BEZIER" two_points)
  /\ keeps_markers Z (move_control_point Z limit DOWN 0) (world_of "BEZIER" two_points).
Proof.
  destruct (marker_agreement_kept Z 0 1 limit unique (world_of "BEZIER" two_points) two_points_agree)
    as (_ & Hre & Hmv & _).
  split; [apply Hre|apply Hmv]. unfold num_points. simpl. lia.
Defined.

Lemma reorder_control_point_out_of_range_witness :
  exists w',
    reorder_control_point Z limit 0 5 (world_of "BEZIER" two_points) = (Ret FINISHED, w')
    /\ positions Z w' = [(0, 0, 0); (1, 0, 0)]
    /\ active_control_point_index Z (scene Z w') = 5.
Proof.
  destruct (reorder_control_point_out_of_range Z limit 0 5 (world_of "BEZIER" two_points))
    as (w' & Hrun & Hp & _ & Ha); [unfold num_points; simpl; lia|].
  exists w'. split; [exact Hrun|]. split; [exact Hp|exact Ha].
Defined.

Lemma sphere_left_behind_witness :
  exists w1 w2,
    remove_control_point Z 0 marked_world = (Ret FINISHED, w1)
    /\ set_x Z limit 0%nat 7 w1 = (Ret tt, w2)
    /\ control_points Z (scene Z w2) !! 0%nat = Some (pt 7 0 0 "ControlPoint_0")
    /\ named Z "ControlPoint_0" w2 = [sphere "ControlPoint_0" (7, 0, 0)]
    /\ named Z "ControlPoint_1" w2 = [sphere "ControlPoint_1" (1, 0, 0)].
Proof.
  destruct (sphere_left_behind Z limit 0 7 marked_world (pt 1 0 0 "ControlPoint_1"))
    as (w1 & w2 & H1 & H2 & Hc & Hn0 & Hn1 & _).
  - vm_compute. reflexivity.
  - intros [|[|i]] p Hp; simplify_eq/=; vm_compute; reflexivity.
  - lia.
  - reflexivity.
  - assert (E0 : marker_name 0 = "ControlPoint_0") by (vm_compute; reflexivity).
    assert (E1 : marker_name (0 + 1) = "ControlPoint_1") by (vm_compute; reflexivity).
    rewrite E0 in Hc, Hn0. rewrite E1 in Hn1.
    exists w1, w2. split; [exact H1|]. split; [exact H2|].
    split; [exact Hc|]. split; [rewrite Hn0|rewrite Hn1]; reflexivity.
Defined.
